(** * umcp: a shallow embedding of the request-to-process pipeline

    Modelled Go sources:
    - internal/config/schema.go        (Security, Argument, Output, Group, ...)
    - config helpers (IsPathAllowed, IsCommandBlocked)
    - internal/executor/executor.go    (Execute, ExecuteChain, Sandbox)
    - internal/executor/builder.go     (BuildCommand, buildFlag, formatValue)
    - internal/parser/parser.go        (ParseOutput, parseLines, parseRegex)
    - internal/mcp/server.go, protocol.go (handleToolCall, error codes)

    Go strings are byte strings; they are modelled as Rocq [string]
    (a list of 8-bit [ascii] characters).  Library primitives whose
    internals the properties below do not depend on (the regexp engine, fmt scanning and
    float printing, os.Getwd, process execution) are parameters of the
    Sections that use them. *)

From Stdlib Require Import String Ascii ZArith List Bool DecimalString.
From Stdlib Require Import Sorted Permutation DecimalPos DecimalZ.
From stdpp Require Import base strings gmap.
Import ListNotations.

Open Scope string_scope.

(* ------------------------------------------------------------------ *)
(** ** Go [strings] and [path/filepath] helpers *)

Module GoStr.

(** strings.HasPrefix *)
Fixpoint HasPrefix (s prefix : string) : bool :=
  match prefix, s with
  | EmptyString, _ => true
  | String c p, String d s' => Ascii.eqb c d && HasPrefix s' p
  | String _ _, EmptyString => false
  end.

(** strings.Contains *)
Fixpoint Contains (s substr : string) : bool :=
  HasPrefix s substr ||
  match s with
  | EmptyString => false
  | String _ s' => Contains s' substr
  end.

Definition slash : ascii := "/"%char.

(** strings.Join *)
Fixpoint Join (xs : list string) (sep : string) : string :=
  match xs with
  | [] => ""
  | [x] => x
  | x :: xs' => x ++ sep ++ Join xs' sep
  end.

(** strings.Split (for a one-byte separator) *)
Fixpoint split_rev (sep : ascii) (s : string) (cur : string) : list string :=
  match s with
  | EmptyString => [cur]
  | String c s' =>
      if Ascii.eqb c sep then cur :: split_rev sep s' ""
      else split_rev sep s' (cur ++ String c "")
  end.

Definition Split (s : string) (sep : ascii) : list string := split_rev sep s "".

(** Go string length (in bytes) and slicing [s[:n]] *)
Definition len (s : string) : Z := Z.of_nat (String.length s).

Definition slice_to (s : string) (n : Z) : string := substring 0 (Z.to_nat n) s.

End GoStr.

Module FilePath.
Import GoStr.

(** filepath.Base on Unix: strip trailing slashes, keep the last element;
    "" gives "." and a path of only slashes gives "/". *)
Fixpoint drop_slashes (l : list ascii) : list ascii :=
  match l with
  | c :: l' => if Ascii.eqb c slash then drop_slashes l' else l
  | [] => []
  end.

Fixpoint take_until_slash (l : list ascii) : list ascii :=
  match l with
  | c :: l' => if Ascii.eqb c slash then [] else c :: take_until_slash l'
  | [] => []
  end.

Definition Base (path : string) : string :=
  if String.eqb path "" then "."
  else
    let r := drop_slashes (rev (list_ascii_of_string path)) in
    match r with
    | [] => "/"
    | _ => string_of_list_ascii (rev (take_until_slash r))
    end.

(** filepath.IsAbs on Unix *)
Definition IsAbs (path : string) : bool := HasPrefix path "/".

(** filepath.Clean: lexical processing of "", ".", ".." elements. *)
Fixpoint clean_elems (rooted : bool) (out : list string) (elems : list string)
  : list string :=
  match elems with
  | [] => out
  | e :: es =>
      if String.eqb e "" || String.eqb e "." then clean_elems rooted out es
      else if String.eqb e ".." then
        match out with
        | x :: out' =>
            if String.eqb x ".." then clean_elems rooted (e :: out) es
            else clean_elems rooted out' es
        | [] =>
            if rooted then clean_elems rooted [] es
            else clean_elems rooted [e] es
        end
      else clean_elems rooted (e :: out) es
  end.

Definition Clean (path : string) : string :=
  let rooted := IsAbs path in
  let out := rev (clean_elems rooted [] (Split path slash)) in
  let res := (if rooted then "/" else "") ++ Join out "/" in
  if String.eqb res "" then "." else res.

(** filepath.Join of two elements (empty elements are ignored) *)
Definition Join2 (a b : string) : string :=
  if String.eqb a "" then (if String.eqb b "" then "" else Clean b)
  else if String.eqb b "" then Clean a
  else Clean (a ++ "/" ++ b).

(** filepath.Abs: [getwd] is the result of os.Getwd (None: it failed). *)
Definition Abs (getwd : option string) (path : string) : option string :=
  if IsAbs path then Some (Clean path)
  else match getwd with
       | Some wd => Some (Join2 wd path)
       | None => None
       end.

End FilePath.

(* ------------------------------------------------------------------ *)
(** ** Configuration schema (internal/config/schema.go) *)

Record Security := mkSecurity {
  AllowedPaths : list string;
  BlockedCommands : list string;
  MaxOutputSize : Z;              (* int64 *)
  RateLimit : string;
  DisableInjectionCheck : bool
}.

(** ** Config helpers *)
Module Config.
Import GoStr.

(** IsPathAllowed *)
Definition IsPathAllowed (getwd : option string) (path : string)
    (allowedPaths : list string) : bool :=
  match allowedPaths with
  | [] => true
  | _ =>
      match FilePath.Abs getwd path with
      | None => false
      | Some absPath =>
          existsb (fun allowed =>
                     match FilePath.Abs getwd allowed with
                     | None => false
                     | Some absAllowed => HasPrefix absPath absAllowed
                     end) allowedPaths
      end
  end.

(** IsCommandBlocked *)
Definition IsCommandBlocked (command : string) (blockedCommands : list string) : bool :=
  existsb (fun blocked => String.eqb command blocked) blockedCommands.

End Config.

(* ------------------------------------------------------------------ *)
(** ** Sandbox (internal/executor/executor.go) *)

Module Sandbox.
Import GoStr.

(** A Go [error] result: [None] is nil, [Some msg] an error. *)
Definition goerr : Type := option string.

Definition dangerousPatterns : list string :=
  [ "$("; "`"; "&&"; "||"; ";"; "|"; ">"; "<"; ">>"; "<<";
    String "010"%char ""; String "013"%char ""; "$IFS"; "${IFS}" ].

(** hasInjectionPattern *)
Definition hasInjectionPattern (input : string) : bool :=
  existsb (fun pattern => Contains input pattern) dangerousPatterns.

(** looksLikeFilePath *)
Definition looksLikeFilePath (input : string) : bool :=
  HasPrefix input "/" || HasPrefix input "./" || HasPrefix input "../" ||
  Contains input "/".

(** the path loop of ValidateCommand over cmdParts[1:] *)
Fixpoint check_paths (getwd : option string) (allowed : list string)
    (parts : list string) : goerr :=
  match parts with
  | [] => None
  | part :: rest =>
      if looksLikeFilePath part && negb (Config.IsPathAllowed getwd part allowed)
      then Some ("path '" ++ part ++ "' is not in allowed paths")
      else check_paths getwd allowed rest
  end.

(** ValidateCommand *)
Definition ValidateCommand (getwd : option string) (cmdParts : list string)
    (security : Security) : goerr :=
  match cmdParts with
  | [] => Some "empty command"
  | first :: rest =>
      let cmd := FilePath.Base first in
      if Config.IsCommandBlocked cmd (BlockedCommands security)
      then Some ("command '" ++ cmd ++ "' is blocked")
      else if existsb hasInjectionPattern cmdParts
      then Some "potential command injection detected"
      else check_paths getwd (AllowedPaths security) rest
  end.

End Sandbox.

(* ------------------------------------------------------------------ *)
(** ** Dynamic Go values ([interface{}]) and encoding/json *)

(** The float64 operations of the Go runtime that the pipeline uses:
    conversion [int(f)], fmt's "%f" and "%v" verbs, strconv.ParseFloat,
    [float64(i)], and encoding/json's number encoder, which fails on NaN
    and infinities. *)
Class GoFloat (F : Type) := {
  float_trunc : F -> Z;
  float_of_int : Z -> F;
  fmt_f : F -> string;
  fmt_g : F -> string;
  ParseFloat : string -> option F;
  float_json : F -> option string;
  (** fmt.Sscanf(value, "%d", &i) and fmt.Sscanf(value, "%f", &f) *)
  SscanInt : string -> option Z;
  SscanFloat : string -> option F
}.

Module Value.
Import GoStr.

(** Values reaching the builder and the parser: decoded JSON values,
    YAML defaults, and the results of convertType.  [VObject] is a
    [map[string]interface{}]; its keys are distinct. *)
Inductive goval (F : Type) : Type :=
| VNil
| VBool (b : bool)
| VInt (z : Z)
| VFloat (f : F)
| VString (s : string)
| VArray (xs : list (goval F))
| VObject (kvs : list (string * goval F)).

Arguments VNil {F}.
Arguments VBool {F} b.
Arguments VInt {F} z.
Arguments VFloat {F} f.
Arguments VString {F} s.
Arguments VArray {F} xs.
Arguments VObject {F} kvs.

(** strconv.Itoa *)
Definition Itoa (z : Z) : string := NilEmpty.string_of_int (Z.to_int z).

(** sorting of map entries by key, as fmt and encoding/json print maps *)
Fixpoint insert_by_key {A} (kv : string * A) (l : list (string * A)) :=
  match l with
  | [] => [kv]
  | kv' :: l' =>
      if String.ltb (fst kv') (fst kv) then kv' :: insert_by_key kv l'
      else kv :: l
  end.

Definition sort_by_key {A} (l : list (string * A)) : list (string * A) :=
  fold_right insert_by_key [] l.

Section Fmt.
Context {F : Type} `{GoFloat F}.

(** fmt.Sprintf("%v", v) *)
Fixpoint Sprint (v : goval F) : string :=
  match v with
  | VNil => "<nil>"
  | VBool b => if b then "true" else "false"
  | VInt z => Itoa z
  | VFloat f => fmt_g f
  | VString s => s
  | VArray xs => "[" ++ Join (map Sprint xs) " " ++ "]"
  | VObject kvs =>
      "map[" ++ Join (map (fun '(k, s) => k ++ ":" ++ s)
                          (sort_by_key (map (fun '(k, x) => (k, Sprint x)) kvs)))
                     " " ++ "]"
  end.

Definition dq : string := String (ascii_of_nat 34) "".
Definition nl : string := String (ascii_of_nat 10) "".

Definition hexdigit (n : nat) : string :=
  String (ascii_of_nat (if Nat.ltb n 10 then 48 + n else 87 + n)) "".

(** encoding/json string escaping (with the default HTML escaping of
    <, > and &); bytes >= 0x80 are copied (valid UTF-8 input). *)
Definition escape_char (c : ascii) : string :=
  let n := nat_of_ascii c in
  if Nat.eqb n 34 then "\" ++ dq
  else if Nat.eqb n 92 then "\\"
  else if Nat.eqb n 10 then "\n"
  else if Nat.eqb n 13 then "\r"
  else if Nat.eqb n 9 then "\t"
  else if Nat.ltb n 32 then "\u00" ++ hexdigit (n / 16) ++ hexdigit (n mod 16)
  else if Nat.eqb n 60 then "\u003c"
  else if Nat.eqb n 62 then "\u003e"
  else if Nat.eqb n 38 then "\u0026"
  else String c "".

Fixpoint escape (s : string) : string :=
  match s with
  | EmptyString => ""
  | String c s' => escape_char c ++ escape s'
  end.

Definition quote (s : string) : string := dq ++ escape s ++ dq.

Fixpoint indent (d : nat) : string :=
  match d with
  | O => ""
  | S d' => "  " ++ indent d'
  end.

Fixpoint all_some {A} (l : list (option A)) : option (list A) :=
  match l with
  | [] => Some []
  | Some x :: l' => match all_some l' with Some r => Some (x :: r) | None => None end
  | None :: _ => None
  end.

(** json.Marshal ([pretty = false]) and json.MarshalIndent(v, "", "  ")
    ([pretty = true]) of a value at nesting depth [d]; [None] is the
    encoder's error (a NaN or infinite float). *)
Fixpoint encode (pretty : bool) (d : nat) (v : goval F) : option string :=
  match v with
  | VNil => Some "null"
  | VBool b => Some (if b then "true" else "false")
  | VInt z => Some (Itoa z)
  | VFloat f => float_json f
  | VString s => Some (quote s)
  | VArray [] => Some "[]"
  | VArray xs =>
      match all_some (map (encode pretty (S d)) xs) with
      | None => None
      | Some es =>
          Some (if pretty
                then "[" ++ nl ++ Join (map (fun e => indent (S d) ++ e) es) ("," ++ nl)
                     ++ nl ++ indent d ++ "]"
                else "[" ++ Join es "," ++ "]")
      end
  | VObject [] => Some "{}"
  | VObject kvs =>
      match all_some (map (fun '(k, x) =>
                             match encode pretty (S d) x with
                             | Some e => Some (k, e)
                             | None => None
                             end) kvs) with
      | None => None
      | Some es =>
          let es := sort_by_key es in
          Some (if pretty
                then "{" ++ nl ++
                     Join (map (fun '(k, e) => indent (S d) ++ quote k ++ ": " ++ e) es)
                          ("," ++ nl)
                     ++ nl ++ indent d ++ "}"
                else "{" ++ Join (map (fun '(k, e) => quote k ++ ":" ++ e) es) "," ++ "}")
      end
  end.

Definition Marshal (v : goval F) : option string := encode false 0 v.
Definition MarshalIndent (v : goval F) : option string := encode true 0 v.

End Fmt.

(** append on a slice held in an [interface{}]: a nil slice becomes a
    one-element slice. *)
Definition slice_append {F} (s : goval F) (x : goval F) : goval F :=
  match s with
  | VArray xs => VArray (app xs [x])
  | _ => VArray [x]
  end.

(** m[k] = v on a map *)
Fixpoint map_set {A} (m : list (string * A)) (k : string) (v : A) : list (string * A) :=
  match m with
  | [] => [(k, v)]
  | (k', v') :: m' =>
      if String.eqb k k' then (k, v) :: m' else (k', v') :: map_set m' k v
  end.

End Value.

Import Value.

(** ** The rest of the schema (internal/config/schema.go) *)

Record Metadata := mkMetadata { MetaName : string; MetaDescription : string; MetaVersion : string }.

Record Settings := mkSettings {
  SetCommand : string;
  WorkingDir : string;
  Timeout : Z;                    (* time.Duration, nanoseconds *)
  Environment : list string;
  Shell : string
}.

Record Group := mkGroup { GroupName : string; GroupType : string }.

Record Output := mkOutput {
  OutType : string;
  Pattern : string;
  Groups : list Group;
  JQ : string
}.

Record Chain := mkChain { ChainCommand : string; ChainArguments : list string }.

Section Schema.
Context (F : Type).

Record Argument := mkArgument {
  ArgName : string;
  ArgDescription : string;
  ArgType : string;
  Required : bool;
  Flag : string;
  Default : goval F;              (* interface{}; VNil when absent *)
  Min : option Z;
  Max : option Z;
  Validation : string;
  When : string;
  Positional : bool;
  Position : Z
}.

Record Tool := mkTool {
  ToolName : string;
  ToolDescription : string;
  ToolCommand : string;
  Arguments : list Argument;
  ToolOutput : Output;
  ToolChain : list Chain
}.

Record Config := mkConfig {
  Version : string;
  CfgMetadata : Metadata;
  CfgSettings : Settings;
  CfgSecurity : Security;
  Tools : list Tool
}.

End Schema.

Arguments ArgName {F}. Arguments ArgType {F}. Arguments Required {F}.
Arguments Flag {F}. Arguments Default {F}. Arguments When {F}.
Arguments Positional {F}. Arguments Position {F}.
Arguments ToolName {F}. Arguments ToolCommand {F}. Arguments Arguments {F}.
Arguments ToolOutput {F}. Arguments CfgMetadata {F}. Arguments CfgSettings {F}.
Arguments CfgSecurity {F}. Arguments Tools {F}.

(** A Go [(T, error)] result and its bind. *)
Inductive result (A : Type) : Type :=
| Ok (a : A)
| Err (msg : string).
Arguments Ok {A} a.
Arguments Err {A} msg.

Notation "'let*' x ':=' c 'in' k" :=
  (match c with Ok x => k | Err e => Err e end)
  (at level 200, x name, c at level 100, k at level 200).

(* ------------------------------------------------------------------ *)
(** ** CommandBuilder (internal/executor/builder.go) *)

Module Builder.
Import GoStr.

(** strconv.Atoi: optional sign, decimal digits, int64 range. *)
Fixpoint digits_value (l : list ascii) (acc : Z) : option Z :=
  match l with
  | [] => Some acc
  | c :: l' =>
      let n := Z.of_nat (nat_of_ascii c) in
      if (48 <=? n)%Z && (n <=? 57)%Z then digits_value l' (acc * 10 + (n - 48))%Z
      else None
  end.

Definition Atoi (s : string) : option Z :=
  let '(sign, body) :=
    match list_ascii_of_string s with
    | c :: l => if Ascii.eqb c "-"%char then ((-1)%Z, l)
                else if Ascii.eqb c "+"%char then (1%Z, l)
                else (1%Z, c :: l)
    | [] => (1%Z, [])
    end in
  match body with
  | [] => None
  | _ =>
      match digits_value body 0 with
      | Some v =>
          let z := (sign * v)%Z in
          if ((- 2 ^ 63) <=? z)%Z && (z <? 2 ^ 63)%Z then Some z else None
      | None => None
      end
  end.

Section Builder.
Context {F : Type} `{GoFloat F}.

(** formatValue *)
Definition formatValue (argType : string) (value : goval F) : result string :=
  if String.eqb argType "string" then
    match value with
    | VString s => Ok s
    | _ => Ok (Sprint value)
    end
  else if String.eqb argType "integer" then
    match value with
    | VFloat f => Ok (Itoa (float_trunc f))
    | VInt z => Ok (Itoa z)
    | VString s =>
        match Atoi s with
        | Some i => Ok (Itoa i)
        | None => Err ("invalid integer: " ++ s)
        end
    | _ => Err "expected integer"
    end
  else if String.eqb argType "float" then
    match value with
    | VFloat f => Ok (fmt_f f)
    | VInt z => Ok (fmt_f (float_of_int z))
    | VString s =>
        match ParseFloat s with
        | Some f => Ok (fmt_f f)
        | None => Err ("invalid float: " ++ s)
        end
    | _ => Err "expected float"
    end
  else if String.eqb argType "object" then
    match Marshal value with
    | Some data => Ok data
    | None => Err "failed to marshal object"
    end
  else Ok (Sprint value).

(** the loop over the items of an array argument *)
Fixpoint build_items (flag : string) (arr : list (goval F)) : result (list string) :=
  match arr with
  | [] => Ok []
  | item :: arr' =>
      let* strVal := formatValue "string" item in
      let* rest := build_items flag arr' in
      Ok (app (if Contains flag "=" then [flag ++ strVal] else [flag; strVal]) rest)
  end.

(** buildFlag *)
Definition buildFlag (arg : Argument F) (value : goval F) : result (list string) :=
  if String.eqb (ArgType arg) "boolean" then
    match value with
    | VBool boolVal =>
        if boolVal && negb (String.eqb (Flag arg) "") then Ok [Flag arg] else Ok []
    | _ => Err "expected boolean"
    end
  else if String.eqb (ArgType arg) "array" then
    let arr := match value with
               | VArray xs => xs
               | _ => [value]          (* convert single value to array *)
               end in
    build_items (Flag arg) arr
  else
    let* strVal := formatValue (ArgType arg) value in
    if String.eqb (Flag arg) "" then Ok [strVal]
    else if Contains (Flag arg) "=" then Ok [Flag arg ++ strVal]
    else Ok [Flag arg; strVal].

(** strings.TrimPrefix, strings.TrimSuffix and strings.Trim(s, one byte) *)
Definition TrimPrefix (s prefix : string) : string :=
  if HasPrefix s prefix then substring (String.length prefix) (String.length s) s else s.

Definition TrimSuffix (s suffix : string) : string :=
  let n := String.length s in
  let m := String.length suffix in
  if Nat.leb m n && String.eqb (substring (n - m) m s) suffix
  then substring 0 (n - m) s else s.

Fixpoint drop_char (c : ascii) (l : list ascii) : list ascii :=
  match l with
  | d :: l' => if Ascii.eqb c d then drop_char c l' else l
  | [] => []
  end.

Definition TrimChar (s : string) (c : ascii) : string :=
  string_of_list_ascii (rev (drop_char c (rev (drop_char c (list_ascii_of_string s))))).

(** evaluateCondition: "${varname} == value" or "... != ..." *)
Definition evaluateCondition (condition : string) (args : gmap string (goval F)) : bool :=
  match Split condition " "%char with
  | [p0; operator; p2] =>
      let varName := TrimPrefix (TrimSuffix p0 "}") "${" in
      let expectedValue := TrimChar p2 (ascii_of_nat 34) in
      match args !! varName with
      | None => false
      | Some actualValue =>
          if String.eqb operator "==" then String.eqb (Sprint actualValue) expectedValue
          else if String.eqb operator "!=" then negb (String.eqb (Sprint actualValue) expectedValue)
          else false
      end
  | _ => false
  end.

(** extractPositionalArgs: the positional arguments sorted by Position
    (an insertion sort, which is what sort.Slice does on short slices) *)
Fixpoint insert_by_position (a : Argument F) (l : list (Argument F)) : list (Argument F) :=
  match l with
  | [] => [a]
  | b :: l' => if (Position a <? Position b)%Z then a :: l else b :: insert_by_position a l'
  end.

Definition extractPositionalArgs (arguments : list (Argument F)) : list (Argument F) :=
  fold_left (fun acc a => insert_by_position a acc)
            (List.filter (fun a => Positional a) arguments) [].

(** the value used for an argument: supplied, else the default, else a
    "required" error, else skipped ([Ok None]) *)
Definition arg_value (arg : Argument F) (args : gmap string (goval F))
  : result (option (goval F)) :=
  match args !! ArgName arg with
  | Some v => Ok (Some v)
  | None =>
      match Default arg with
      | VNil => if Required arg
                then Err ("required argument " ++ ArgName arg ++ " not provided")
                else Ok None
      | d => Ok (Some d)
      end
  end.

Fixpoint build_positional (args : gmap string (goval F)) (ps : list (Argument F))
  : result (list string) :=
  match ps with
  | [] => Ok []
  | arg :: ps' =>
      let* ov := arg_value arg args in
      match ov with
      | None => build_positional args ps'
      | Some value =>
          match formatValue (ArgType arg) value with
          | Err e => Err ("failed to format " ++ ArgName arg ++ ": " ++ e)
          | Ok strVal =>
              let* rest := build_positional args ps' in Ok (strVal :: rest)
          end
      end
  end.

Fixpoint build_flags (args : gmap string (goval F)) (as_ : list (Argument F))
  : result (list string) :=
  match as_ with
  | [] => Ok []
  | arg :: as' =>
      if Positional arg then build_flags args as' else
      let* ov := arg_value arg args in
      match ov with
      | None => build_flags args as'
      | Some value =>
          if negb (String.eqb (When arg) "") && negb (evaluateCondition (When arg) args)
          then build_flags args as'
          else
            match buildFlag arg value with
            | Err e => Err ("failed to build flag for " ++ ArgName arg ++ ": " ++ e)
            | Ok flagParts =>
                let* rest := build_flags args as' in Ok (app flagParts rest)
            end
      end
  end.

(** BuildCommand *)
Definition BuildCommand (cfg : Config F) (tool : Tool F) (args : gmap string (goval F))
  : result (list string) :=
  let base := if String.eqb (SetCommand (CfgSettings cfg)) "" then []
              else [SetCommand (CfgSettings cfg)] in
  let sub := if String.eqb (ToolCommand tool) "" then [] else [ToolCommand tool] in
  let* pos := build_positional args (extractPositionalArgs (Arguments tool)) in
  let* flags := build_flags args (Arguments tool) in
  Ok (app base (app sub (app pos flags))).

End Builder.
End Builder.

(* ------------------------------------------------------------------ *)
(** ** Output parser (internal/parser/parser.go) *)

(** The regexp package: regexp.Compile and FindAllStringSubmatch(s, -1).
    Each match is the full match followed by the submatches. *)
Class RegexEngine := {
  Regexp : Type;
  Compile : string -> option Regexp;
  FindAllStringSubmatch : Regexp -> string -> list (list string)
}.

(** The format parsers of the package whose details are not modelled
    (parseJSON, parseCSV, parseXML). *)
Class OtherParsers := {
  parseJSON : string -> string -> result string;
  parseCSV : string -> result string;
  parseXML : string -> result string
}.

Module Parser.
Import GoStr.

(** unicode.IsSpace on one-byte runes: \t \n \v \f \r and space *)
Definition is_space (c : ascii) : bool :=
  let n := nat_of_ascii c in (Nat.leb 9 n && Nat.leb n 13) || Nat.eqb n 32.

(** unicode.IsSpace on the UTF-8 encodings of two-byte runes:
    U+0085 (C2 85) and U+00A0 (C2 A0) *)
Definition is_space2 (b0 b1 : ascii) : bool :=
  let n0 := nat_of_ascii b0 in let n1 := nat_of_ascii b1 in
  Nat.eqb n0 194 && (Nat.eqb n1 133 || Nat.eqb n1 160).

(** unicode.IsSpace on the UTF-8 encodings of three-byte runes:
    U+1680 (E1 9A 80), U+2000..U+200A (E2 80 80..8A), U+2028 (E2 80 A8),
    U+2029 (E2 80 A9), U+202F (E2 80 AF), U+205F (E2 81 9F) and
    U+3000 (E3 80 80) *)
Definition is_space3 (b0 b1 b2 : ascii) : bool :=
  let n0 := nat_of_ascii b0 in let n1 := nat_of_ascii b1 in let n2 := nat_of_ascii b2 in
  (Nat.eqb n0 225 && Nat.eqb n1 154 && Nat.eqb n2 128) ||
  (Nat.eqb n0 226 && Nat.eqb n1 128 &&
   ((Nat.leb 128 n2 && Nat.leb n2 138) || Nat.eqb n2 168 || Nat.eqb n2 169 || Nat.eqb n2 175)) ||
  (Nat.eqb n0 226 && Nat.eqb n1 129 && Nat.eqb n2 159) ||
  (Nat.eqb n0 227 && Nat.eqb n1 128 && Nat.eqb n2 128).

(** The white-space runes at one end of a string, dropped one by one
    (strings.TrimLeftFunc / TrimRightFunc with unicode.IsSpace).  The
    first (or, decoding backwards, the last) rune is a space exactly
    when the bytes there are the encoding of a space rune: UTF-8
    decoding reads a valid encoding as its rune, and anything else as
    U+FFFD, which is not a space.  With [back = true] the list holds
    the bytes in reverse order, and the encodings are matched reversed. *)
Fixpoint drop_space (back : bool) (l : list ascii) : list ascii :=
  match l with
  | [] => []
  | b0 :: l1 =>
      if is_space b0 then drop_space back l1 else
      match l1 with
      | [] => l
      | b1 :: l2 =>
          if (if back then is_space2 b1 b0 else is_space2 b0 b1) then drop_space back l2 else
          match l2 with
          | [] => l
          | b2 :: l3 =>
              if (if back then is_space3 b2 b1 b0 else is_space3 b0 b1 b2)
              then drop_space back l3 else l
          end
      end
  end.

(** strings.TrimSpace: leading, then trailing white space (its ASCII
    fast path gives the same result) *)
Definition TrimSpace (s : string) : string :=
  string_of_list_ascii
    (rev (drop_space true (rev (drop_space false (list_ascii_of_string s))))).

(** strings.ToLower on ASCII letters *)
Definition lower_char (c : ascii) : ascii :=
  let n := nat_of_ascii c in
  if Nat.leb 65 n && Nat.leb n 90 then ascii_of_nat (n + 32) else c.

Definition ToLower (s : string) : string :=
  string_of_list_ascii (map lower_char (list_ascii_of_string s)).

Section Parser.
Context {F : Type} `{GoFloat F} `{RegexEngine} `{OtherParsers}.

(** parseLines *)
Definition parseLines (output : string) : result string :=
  let lines := Split (TrimSpace output) (ascii_of_nat 10) in
  let filtered := List.filter (fun l => negb (String.eqb l "")) (map TrimSpace lines) in
  match MarshalIndent (VArray (map (@VString F) filtered)) with
  | Some data => Ok data
  | None => Err "json: unsupported value"
  end.

(** convertType *)
Definition convertType (value typeName : string) : goval F :=
  if String.eqb typeName "integer" then
    match SscanInt value with Some i => VInt i | None => VString value end
  else if String.eqb typeName "float" || String.eqb typeName "number" then
    match SscanFloat value with Some f => VFloat f | None => VString value end
  else if String.eqb typeName "boolean" then
    let lower := ToLower value in
    if String.eqb lower "true" || String.eqb lower "yes" || String.eqb lower "1"
    then VBool true
    else if String.eqb lower "false" || String.eqb lower "no" || String.eqb lower "0"
    then VBool false
    else VString value
  else VString value.

(** the named-group loop: group [i] is read from capture [i+1] when
    [i+1 < len(match)] *)
Fixpoint named_groups (i : nat) (groups : list Group) (m : list string)
    (result : list (string * goval F)) : list (string * goval F) :=
  match groups with
  | [] => result
  | group :: groups' =>
      let result :=
        if Nat.ltb (i + 1) (length m)
        then map_set result (GroupName group) (convertType (nth (i + 1) m "") (GroupType group))
        else result in
      named_groups (S i) groups' m result
  end.

(** the numbered-group loop: "group<i>" for every submatch i > 0 *)
Fixpoint numbered_groups (i : nat) (m : list string)
    (result : list (string * goval F)) : list (string * goval F) :=
  match m with
  | [] => result
  | submatch :: m' =>
      let result :=
        if Nat.ltb 0 i then map_set result ("group" ++ Itoa (Z.of_nat i)) (VString submatch)
        else result in
      numbered_groups (S i) m' result
  end.

Definition match_object (groups : list Group) (m : list string) : goval F :=
  match groups with
  | [] => VObject (numbered_groups 0 m [])
  | _ => VObject (named_groups 0 groups m [])
  end.

(** parseRegex; [results] starts as a nil slice *)
Definition parseRegex (output pattern : string) (groups : list Group) : result string :=
  if String.eqb pattern "" then Err "regex pattern is required" else
  match Compile pattern with
  | None => Err "invalid regex pattern"
  | Some re =>
      let matches := FindAllStringSubmatch re output in
      let results := fold_left (fun results m => slice_append results (match_object groups m))
                               matches VNil in
      match MarshalIndent results with
      | Some data => Ok data
      | None => Err "json: unsupported value"
      end
  end.

(** ParseOutput *)
Definition ParseOutput (output : string) (outputCfg : Output) : result string :=
  let t := OutType outputCfg in
  if String.eqb t "json" then parseJSON output (JQ outputCfg)
  else if String.eqb t "lines" then parseLines output
  else if String.eqb t "regex" then parseRegex output (Pattern outputCfg) (Groups outputCfg)
  else if String.eqb t "csv" then parseCSV output
  else if String.eqb t "xml" then parseXML output
  else Ok output.

End Parser.
End Parser.

(* ------------------------------------------------------------------ *)
(** ** Process execution (internal/executor/executor.go) *)

(** A process invocation as exec.CommandContext sets it up. *)
Record Cmd := mkCmd {
  Argv : list string;
  Dir : string;
  Env : list string;
  CmdTimeout : Z
}.

(** The error of cmd.Run(): an *exec.ExitError or another error. *)
Inductive RunError :=
| ExitError (code : Z)
| OtherError (msg : string).

Record RunResult := mkRunResult {
  Stdout : string;
  Stderr : string;
  RunErr : option RunError;
  DeadlineExceeded : bool          (* ctx.Err() == context.DeadlineExceeded *)
}.

(** The operating system: os.Getwd, os.Environ, running a process (which
    may change the world), and time.Duration.String. *)
Class ProcessEnv := {
  World : Type;
  Getwd : World -> option string;
  Environ : World -> list string;
  run : World -> Cmd -> World * RunResult;
  DurationString : Z -> string
}.

Module Exec.
Import GoStr.

Section Exec.
Context `{ProcessEnv}.

(** The executor's effects: a world and the log of processes started. *)
Definition M (A : Type) : Type := World * list Cmd -> A * (World * list Cmd).

Definition ret {A} (a : A) : M A := fun s => (a, s).
Definition bind {A B} (m : M A) (k : A -> M B) : M B :=
  fun s => let '(a, s') := m s in k a s'.

Definition getwd : M (option string) := fun s => (Getwd (fst s), s).
Definition environ : M (list string) := fun s => (Environ (fst s), s).

(** cmd.Run() *)
Definition exec (c : Cmd) : M RunResult :=
  fun '(w, log) => let '(w', r) := run w c in (r, (w', app log [c])).

End Exec.

Notation "'let!' x ':=' c 'in' k" := (bind c (fun x => k))
  (at level 200, x name, c at level 100, k at level 200).

Definition RunErrorString (e : RunError) : string :=
  match e with
  | ExitError code => "exit status " ++ Itoa code
  | OtherError msg => msg
  end.

Definition truncationMarker : string := nl ++ "... (output truncated)".

(** stdout, then a newline and stderr when stderr is not empty *)
Definition combined (r : RunResult) : string :=
  Stdout r ++ (if String.eqb (Stderr r) "" then "" else nl ++ Stderr r).

(** the output size check of Execute *)
Definition truncate (maxOutputSize : Z) (output : string) : string :=
  if (0 <? maxOutputSize)%Z && (maxOutputSize <? len output)%Z
  then slice_to output maxOutputSize ++ truncationMarker
  else output.

Definition defaultTimeout : Z := 30 * 1000000000.

Section Execute.
Context {F : Type} `{GoFloat F} `{RegexEngine} `{OtherParsers} `{ProcessEnv}.

Definition execute_timeout (cfg : Config F) : Z :=
  let settings := CfgSettings cfg in
  if (Timeout settings =? 0)%Z then defaultTimeout else Timeout settings.

(** the process started by Execute: working directory ("." or "" mean
    os.Getwd()), environment and timeout *)
Definition execute_cmd (cfg : Config F) (cmdParts : list string) (wd : option string)
    (env : list string) : Cmd :=
  let settings := CfgSettings cfg in
  let workingDir :=
    if String.eqb (WorkingDir settings) "." || String.eqb (WorkingDir settings) ""
    then match wd with Some d => d | None => "" end
    else WorkingDir settings in
  mkCmd cmdParts workingDir (app env (Environment settings)) (execute_timeout cfg).

(** CommandExecutor.Execute: the output and the error (None = nil) *)
Definition Execute (cfg : Config F) (tool : Tool F) (args : gmap string (goval F))
  : M (string * option string) :=
  match Builder.BuildCommand cfg tool args with
  | Err e => ret ("", Some ("failed to build command: " ++ e))
  | Ok cmdParts =>
  let! wd := getwd in
  match Sandbox.ValidateCommand wd cmdParts (CfgSecurity cfg) with
  | Some e => ret ("", Some ("command blocked by security policy: " ++ e))
  | None =>
  let! env := environ in
  let! r := exec (execute_cmd cfg cmdParts wd env) in
  if DeadlineExceeded r
  then ret ("", Some ("command timed out after " ++ DurationString (execute_timeout cfg)))
  else
  let output := truncate (MaxOutputSize (CfgSecurity cfg)) (combined r) in
  match RunErr r with
  | Some (ExitError code) => ret (output, Some ("command failed with exit code " ++ Itoa code))
  | Some e => ret (output, Some ("command failed: " ++ RunErrorString e))
  | None =>
      match Parser.ParseOutput output (ToolOutput tool) with
      | Ok parsedOutput => ret (parsedOutput, None)
      | Err _ => ret (output, None)        (* "Failed to parse output, returning raw" *)
      end
  end
  end
  end.

(** strings.ReplaceAll for a non-empty [old] *)
Fixpoint replace_all_fuel (fuel : nat) (s old new : string) : string :=
  match fuel with
  | O => s
  | S fuel' =>
      match s with
      | EmptyString => ""
      | String c s' =>
          if HasPrefix s old
          then new ++ replace_all_fuel fuel' (substring (String.length old) (String.length s) s) old new
          else String c (replace_all_fuel fuel' s' old new)
      end
  end.

Definition ReplaceAll (s old new : string) : string :=
  replace_all_fuel (String.length s) s old new.

(** substituteVariables; Go visits the map in an unspecified order, the
    model in the order of [map_to_list]. *)
Definition substituteVariables (input : string) (args : gmap string (goval F)) : string :=
  fold_left (fun result '(key, value) =>
               ReplaceAll result ("${" ++ key ++ "}") (Sprint value))
            (map_to_list args) input.

(** the command of a chain step *)
Definition chain_cmd (cfg : Config F) (args : gmap string (goval F)) (env : list string)
    (step : Chain) : Cmd :=
  let settings := CfgSettings cfg in
  mkCmd (app [SetCommand settings]
             (app (if String.eqb (ChainCommand step) "" then [] else [ChainCommand step])
                  (map (fun a => substituteVariables a args) (ChainArguments step))))
        (WorkingDir settings) (app env (Environment settings)) (execute_timeout cfg).

(** the loop of ExecuteChain; [i] is the 0-based index of the step *)
Fixpoint chain_loop (cfg : Config F) (args : gmap string (goval F)) (i : nat)
    (steps : list Chain) (outputs : list string) : M (string * option string) :=
  match steps with
  | [] => ret (Join outputs nl, None)
  | step :: rest =>
      let! env := environ in
      let! r := exec (chain_cmd cfg args env step) in
      match RunErr r with
      | Some e =>
          ret (Join outputs nl,
               Some ("chain step " ++ Itoa (Z.of_nat (i + 1)) ++ " failed: " ++ RunErrorString e))
      | None => chain_loop cfg args (S i) rest (app outputs [combined r])
      end
  end.

(** CommandExecutor.ExecuteChain *)
Definition ExecuteChain (cfg : Config F) (chain : list Chain) (args : gmap string (goval F))
  : M (string * option string) :=
  chain_loop cfg args 0 chain [].

End Execute.
End Exec.

(* ------------------------------------------------------------------ *)
(** ** MCP server (internal/mcp/server.go, protocol.go) *)

Module Mcp.
Import Exec.

(** JSON-RPC error codes *)
Definition ParseError : Z := -32700.
Definition InvalidRequest : Z := -32600.
Definition MethodNotFound : Z := -32601.
Definition InvalidParams : Z := -32602.
Definition InternalError : Z := -32603.

Section Mcp.
Context {F : Type} `{GoFloat F} `{RegexEngine} `{OtherParsers} `{ProcessEnv}.

Record ToolCallParams := mkToolCallParams {
  PName : string;
  PArguments : gmap string (goval F)
}.

(** A request; [Params] is the outcome of json.Unmarshal of the raw
    params into the handler's parameter type. *)
Record Request := mkRequest {
  ReqID : goval F;
  Method : string;
  Params : result ToolCallParams
}.

Record ContentItem := mkContentItem { ItemType : string; Text : string }.

Record ToolCallResult := mkToolCallResult { Content : list ContentItem; IsError : bool }.

Record ErrorResponse := mkErrorResponse { Code : Z; Message : string; Data : goval F }.

(** The payload of a successful response: a tools/call result, or the
    result of another method, whose payload is not modelled. *)
Inductive ResultPayload :=
| ToolCallPayload (r : ToolCallResult)
| OtherPayload (method : string).

Record Response := mkResponse {
  JSONRPC : string;
  RespID : goval F;
  RespResult : option ResultPayload;
  RespError : option ErrorResponse
}.

(** SendError and SendResult: the response they write *)
Definition SendError (id : goval F) (code : Z) (message : string) (data : goval F) : Response :=
  mkResponse "2.0" id None (Some (mkErrorResponse code message data)).

Definition SendResult (id : goval F) (r : ResultPayload) : Response :=
  mkResponse "2.0" id (Some r) None.

Record Server := mkServer {
  configs : list (Config F);
  tools : gmap string (Tool F)
}.

Definition fullName (cfg : Config F) (tool : Tool F) : string :=
  MetaName (CfgMetadata cfg) ++ "_" ++ ToolName tool.

(** NewServer: index every tool under "<catalog>_<tool>" *)
Definition NewServer (cfgs : list (Config F)) : Server :=
  mkServer cfgs
    (fold_left (fun m cfg =>
                  fold_left (fun m tool => <[fullName cfg tool := tool]> m) (Tools cfg) m)
               cfgs ∅).

(** the search for the configuration that declares a tool *)
Definition find_config (cfgs : list (Config F)) (name : string) : option (Config F) :=
  find (fun cfg => existsb (fun t => String.eqb (fullName cfg t) name) (Tools cfg)) cfgs.

(** handleToolCall *)
Definition handleToolCall (s : Server) (req : Request) : M Response :=
  match Params req with
  | Err e => ret (SendError (ReqID req) InvalidParams "Invalid parameters" (VString e))
  | Ok params =>
  match tools s !! PName params with
  | None => ret (SendError (ReqID req) InvalidParams ("Tool not found: " ++ PName params) VNil)
  | Some tool =>
  match find_config (configs s) (PName params) with
  | None => ret (SendError (ReqID req) InternalError "Configuration not found" VNil)
  | Some toolConfig =>
      let! res := Execute toolConfig tool (PArguments params) in
      match snd res with
      | Some err =>
          ret (SendResult (ReqID req)
                 (ToolCallPayload (mkToolCallResult
                    [mkContentItem "text" ("Command failed: " ++ err)] true)))
      | None =>
          ret (SendResult (ReqID req)
                 (ToolCallPayload (mkToolCallResult [mkContentItem "text" (fst res)] false)))
      end
  end
  end
  end.

(** handleRequest; the handlers of the other methods are parameters *)
Variable handleOther : Server -> Request -> M Response.

Definition handleRequest (s : Server) (req : Request) : M Response :=
  let m := Method req in
  if String.eqb m "tools/call" then handleToolCall s req
  else if String.eqb m "initialize" || String.eqb m "tools/list" ||
          String.eqb m "prompts/list" || String.eqb m "resources/list" ||
          String.eqb m "notifications/initialized"
  then handleOther s req
  else ret (SendError (ReqID req) MethodNotFound ("Method not found: " ++ m) VNil).

End Mcp.
End Mcp.

(* ------------------------------------------------------------------ *)
(** ** Configuration loading (internal/config/loader.go) *)

Arguments ArgDescription {F}. Arguments Min {F}. Arguments Max {F}.
Arguments Validation {F}. Arguments ToolDescription {F}. Arguments ToolChain {F}.
Arguments Version {F}.

Module Loader.

Section Loader.
Context {F : Type}.

Definition defaultMaxOutputSize : Z := 10 * 1024 * 1024.

Definition default_argument (arg : Argument F) : Argument F :=
  mkArgument F (ArgName arg) (ArgDescription arg)
    (if String.eqb (ArgType arg) "" then "string" else ArgType arg)
    (Required arg) (Flag arg) (Default arg) (Min arg) (Max arg) (Validation arg)
    (When arg) (Positional arg) (Position arg).

Definition default_tool (tool : Tool F) : Tool F :=
  let out := ToolOutput tool in
  mkTool F (ToolName tool) (ToolDescription tool) (ToolCommand tool)
    (map default_argument (Arguments tool))
    (mkOutput (if String.eqb (OutType out) "" then "raw" else OutType out)
              (Pattern out) (Groups out) (JQ out))
    (ToolChain tool).

(** applyDefaults (its error is always nil) *)
Definition applyDefaults (c : Config F) : Config F :=
  let st := CfgSettings c in
  let sec := CfgSecurity c in
  mkConfig F
    (if String.eqb (Version c) "" then "1.0" else Version c)
    (CfgMetadata c)
    (mkSettings (SetCommand st)
                (if String.eqb (WorkingDir st) "" then "." else WorkingDir st)
                (if (Timeout st =? 0)%Z then Exec.defaultTimeout else Timeout st)
                (Environment st) (Shell st))
    (mkSecurity (AllowedPaths sec) (BlockedCommands sec)
                (if (MaxOutputSize sec =? 0)%Z then defaultMaxOutputSize else MaxOutputSize sec)
                (RateLimit sec) (DisableInjectionCheck sec))
    (map default_tool (Tools c)).

Definition validOutputTypes : list string := ["raw"; "json"; "lines"; "regex"; "csv"; "xml"].
Definition validArgTypes : list string :=
  ["string"; "boolean"; "integer"; "array"; "object"; "float"].

(** a lookup in one of validate's map[string]bool literals *)
Definition valid (set : list string) (s : string) : bool := existsb (String.eqb s) set.

Definition is_nil (v : goval F) : bool := match v with VNil => true | _ => false end.

Fixpoint validate_args (toolName : string) (args : list (Argument F)) : option string :=
  match args with
  | [] => None
  | arg :: rest =>
      if String.eqb (ArgName arg) "" then
        Some ("tool " ++ toolName ++ ": argument name is required")
      else if negb (valid validArgTypes (ArgType arg)) then
        Some ("tool " ++ toolName ++ ", argument " ++ ArgName arg ++ ": invalid type "
              ++ ArgType arg)
      else if Required arg && negb (is_nil (Default arg)) then
        Some ("tool " ++ toolName ++ ", argument " ++ ArgName arg
              ++ ": required arguments cannot have defaults")
      else validate_args toolName rest
  end.

Fixpoint validate_tools (tools : list (Tool F)) : option string :=
  match tools with
  | [] => None
  | tool :: rest =>
      if String.eqb (ToolName tool) "" then Some "tool name is required"
      else if String.eqb (ToolDescription tool) "" then
        Some ("tool " ++ ToolName tool ++ ": description is required")
      else if negb (valid validOutputTypes (OutType (ToolOutput tool))) then
        Some ("tool " ++ ToolName tool ++ ": invalid output type " ++ OutType (ToolOutput tool))
      else if String.eqb (OutType (ToolOutput tool)) "regex" &&
              String.eqb (Pattern (ToolOutput tool)) "" then
        Some ("tool " ++ ToolName tool ++ ": pattern is required for regex output")
      else match validate_args (ToolName tool) (Arguments tool) with
           | Some e => Some e
           | None => validate_tools rest
           end
  end.

(** validate *)
Definition validate (c : Config F) : option string :=
  if String.eqb (MetaName (CfgMetadata c)) "" then Some "metadata.name is required"
  else if String.eqb (SetCommand (CfgSettings c)) "" then Some "settings.command is required"
  else match Tools c with
       | [] => Some "at least one tool must be defined"
       | tools => validate_tools tools
       end.

(** LoadConfig after os.ReadFile and yaml.Unmarshal, whose outcome is
    [parsed] *)
Definition LoadConfig (parsed : result (Config F)) : result (Config F) :=
  match parsed with
  | Err e => Err e
  | Ok cfg =>
      let c := applyDefaults cfg in
      match validate c with
      | Some e => Err ("configuration validation failed: " ++ e)
      | None => Ok c
      end
  end.

End Loader.
End Loader.

(* ------------------------------------------------------------------ *)
(** ** tools/list (internal/mcp/server.go) *)

Module McpTools.
Import Mcp.

(** mapArgTypeToJSONSchema *)
Definition mapArgTypeToJSONSchema (argType : string) : string :=
  if String.eqb argType "boolean" then "boolean"
  else if String.eqb argType "integer" then "integer"
  else if String.eqb argType "float" then "number"
  else if String.eqb argType "array" then "array"
  else if String.eqb argType "object" then "object"
  else "string".

Section McpTools.
Context {F : Type}.

Inductive Property :=
| mkProperty (PType : string) (PDescription : string) (PDefault : goval F)
             (PMinimum PMaximum : option Z) (PItems : option Property).

Record InputSchema := mkInputSchema {
  SchemaType : string;
  Properties : list (string * Property);
  SchemaRequired : list string
}.

Record ToolInfo := mkToolInfo {
  InfoName : string;
  InfoDescription : string;
  InfoSchema : InputSchema
}.

(** the loop over a tool's arguments: properties and required names *)
Definition schema_step (acc : list (string * Property) * list string) (arg : Argument F)
  : list (string * Property) * list string :=
  let '(properties, required) := acc in
  let prop := mkProperty (mapArgTypeToJSONSchema (ArgType arg)) (ArgDescription arg)
                (Default arg) (Min arg) (Max arg)
                (if String.eqb (ArgType arg) "array"
                 then Some (mkProperty "string" "" VNil None None None) else None) in
  (map_set properties (ArgName arg) prop,
   if Required arg then app required [ArgName arg] else required).

Definition tool_info (cfg : Config F) (tool : Tool F) : ToolInfo :=
  let '(properties, required) := fold_left schema_step (Arguments tool) ([], []) in
  mkToolInfo (fullName cfg tool) (ToolDescription tool)
             (mkInputSchema "object" properties required).

(** handleToolsList: the tools of the result *)
Definition handleToolsList (s : Server (F := F)) : list ToolInfo :=
  flat_map (fun cfg => map (tool_info cfg) (Tools cfg)) (configs s).

End McpTools.
End McpTools.

(* ------------------------------------------------------------------ *)
(** ** Predicates used in the statements *)

(** A value matches an argument's declared type: a bool for "boolean",
    a number for "integer" and "float", a value json.Marshal accepts for
    "object"; "string", "array" and other types take any value. *)
Module Typing.
Section Typing.
Context {F : Type} `{GoFloat F}.



(** the keys of a map value *)
Definition object_keys (v : goval F) : list string :=
  match v with
  | VObject kvs => map fst kvs
  | _ => []
  end.

End Typing.
End Typing.

(** What validate requires of an argument and of a tool
    (internal/config/loader.go). *)
Module LoaderPreds.
Import Loader.
Section LoaderPreds.
Context {F : Type}.

Definition arg_valid (arg : Argument F) : Prop :=
  ArgName arg <> "" /\ In (ArgType arg) validArgTypes /\
  (Required arg = true -> Default arg = VNil).

Definition tool_valid (tool : Tool F) : Prop :=
  ToolName tool <> "" /\ ToolDescription tool <> "" /\
  In (OutType (ToolOutput tool)) validOutputTypes /\
  (OutType (ToolOutput tool) = "regex" -> Pattern (ToolOutput tool) <> "") /\
  Forall arg_valid (Arguments tool).

End LoaderPreds.
End LoaderPreds.

(** NewServer's inner loop over the tools of one catalog, and the answer
    handleToolCall writes for the outcome of Execute. *)
Module ServerPreds.
Import Mcp.
Section ServerPreds.
Context {F : Type}.

Definition index_tools (cfg : Config F) (ts : list (Tool F)) (m : gmap string (Tool F)) :=
  fold_left (fun m tool => <[fullName cfg tool := tool]> m) ts m.

Definition call_answer (id : goval F) (res : string * option string) : Response (F := F) :=
  SendResult id (ToolCallPayload
    (match snd res with
     | Some err => mkToolCallResult [mkContentItem "text" ("Command failed: " ++ err)] true
     | None => mkToolCallResult [mkContentItem "text" (fst res)] false
     end)).

End ServerPreds.
End ServerPreds.

(** Sequential successful runs of chain steps: from world [w] the steps
    run the commands [cmds], each exiting without error, produce the
    outputs [outs] and leave world [w']. *)
Module ChainRuns.
Import Exec.
Section ChainRuns.
Context {F : Type} `{GoFloat F} `{RegexEngine} `{OtherParsers} `{ProcessEnv}.
Variables (cfg : Config F) (args : gmap string (goval F)).

Inductive steps_ok : World -> list Chain -> World -> list Cmd -> list string -> Prop :=
| steps_ok_nil w : steps_ok w [] w [] []
| steps_ok_cons w step rest w1 r w2 cmds outs :
    run w (chain_cmd cfg args (Environ w) step) = (w1, r) ->
    RunErr r = None ->
    steps_ok w1 rest w2 cmds outs ->
    steps_ok w (step :: rest) w2 (chain_cmd cfg args (Environ w) step :: cmds)
             (combined r :: outs).

End ChainRuns.
End ChainRuns.

(* ------------------------------------------------------------------ *)
(** ** Concrete instances, to run the model on examples

    float64 restricted to integral values; a regexp engine for patterns
    made of letters and digits (a literal match, no submatches); format
    parsers returning their input; a world counting the processes
    started, in which a process whose arguments contain "fail" exits
    with status 1 and any other prints its arguments like echo. *)
Module Concrete.
Import GoStr.

#[export] Instance IntegralFloat : GoFloat Z := {
  float_trunc := fun z => z;
  float_of_int := fun z => z;
  fmt_f := fun z => Itoa z ++ ".000000";
  fmt_g := Itoa;
  ParseFloat := Builder.Atoi;
  float_json := fun z => Some (Itoa z);
  SscanInt := Builder.Atoi;
  SscanFloat := Builder.Atoi
}.

Definition is_alnum (c : ascii) : bool :=
  let n := nat_of_ascii c in
  (Nat.leb 48 n && Nat.leb n 57) || (Nat.leb 65 n && Nat.leb n 90) ||
  (Nat.leb 97 n && Nat.leb n 122).

Definition literal_pattern (p : string) : bool :=
  negb (String.eqb p "") && forallb is_alnum (list_ascii_of_string p).

Fixpoint find_literal (fuel : nat) (p s : string) : list (list string) :=
  match fuel with
  | O => []
  | S fuel' =>
      match s with
      | EmptyString => []
      | String _ s' =>
          if HasPrefix s p
          then [p] :: find_literal fuel' p (substring (String.length p) (String.length s) s)
          else find_literal fuel' p s'
      end
  end.

#[export] Instance LiteralRegex : RegexEngine := {
  Regexp := string;
  Compile := fun p => if literal_pattern p then Some p else None;
  FindAllStringSubmatch := fun p s => find_literal (String.length s) p s
}.

#[export] Instance IdentityParsers : OtherParsers := {
  parseJSON := fun output _ => Ok output;
  parseCSV := fun output => Ok output;
  parseXML := fun output => Ok output
}.

Definition echo_run (w : nat) (c : Cmd) : nat * RunResult :=
  (S w,
   if existsb (String.eqb "fail") (Argv c)
   then mkRunResult "" "boom" (Some (ExitError 1)) false
   else mkRunResult (Join (tl (Argv c)) " ") "" None false).

#[export] Instance CountingWorld : ProcessEnv := {
  World := nat;
  Getwd := fun _ => Some "/work";
  Environ := fun _ => [];
  run := echo_run;
  DurationString := fun z => Itoa z ++ "ns"
}.

(** Example catalog data *)
Definition ex_security (maxOut : Z) : Security := mkSecurity [] ["rm"] maxOut "" false.

Definition ex_cfg (maxOut : Z) (ts : list (Tool Z)) : Config Z :=
  mkConfig _ "1" (mkMetadata "demo" "" "") (mkSettings "echo" "/work" 0 [] "")
           (ex_security maxOut) ts.

Definition ex_file : Argument Z :=
  mkArgument _ "file" "" "string" true "" VNil None None "" "" true 1.
Definition ex_verbose : Argument Z :=
  mkArgument _ "verbose" "" "boolean" false "-v" VNil None None "" "" false 0.
Definition ex_tags : Argument Z :=
  mkArgument _ "tags" "" "array" false "--tag=" VNil None None "" "" false 0.

Definition ex_tool : Tool Z :=
  mkTool _ "show" "" "" [ex_file; ex_verbose; ex_tags] (mkOutput "raw" "" [] "") [].



Definition ex_lines_tool : Tool Z :=
  mkTool _ "big" "" "abcdef" [] (mkOutput "lines" "" [] "") [].
Definition ex_raw_tool : Tool Z :=
  mkTool _ "big" "" "abcdef" [] (mkOutput "raw" "" [] "") [].

Definition ex_step (arg : string) : Chain := mkChain "" [arg].
Definition ex_chain_args : gmap string (goval Z) := ∅.

Definition ex_request (name : string) : Mcp.Request (F := Z) :=
  Mcp.mkRequest (VInt 1) "tools/call" (Ok (Mcp.mkToolCallParams name ∅)).

Definition ex_handleOther (s : Mcp.Server (F := Z)) (req : Mcp.Request (F := Z))
  : Exec.M (Mcp.Response (F := Z)) :=
  Exec.ret (Mcp.SendResult (Mcp.ReqID req) (Mcp.OtherPayload (Mcp.Method req))).

Definition ex_groups : list Group := [mkGroup "first" "string"; mkGroup "second" "integer"].

End Concrete.

(* ------------------------------------------------------------------ *)
(** ** Sandbox properties *)

Module SandboxFacts.
Import GoStr Sandbox.

Lemma IsCommandBlocked_In (c : string) (l : list string) :
  Config.IsCommandBlocked c l = true <-> In c l.
Proof.
  unfold Config.IsCommandBlocked. rewrite existsb_exists. split.
  - intros (x & Hx & Heq). apply String.eqb_eq in Heq. subst. exact Hx.
  - intros Hin. exists c. split; [exact Hin | apply String.eqb_refl].
Qed.

(** C1: ValidateCommand never reads DisableInjectionCheck; with the flag
    set, a token containing ";" is still rejected as an injection. *)
Theorem ValidateCommand_ignores_DisableInjectionCheck :
  forall (wd : option string),
    ValidateCommand wd ["echo"; "a; b"] (mkSecurity [] [] 0 "" true)
    = Some "potential command injection detected".
Proof. intros wd. reflexivity. Qed.

(** C3 (amended): the blocked-command check looks at the basename of the
    first token only.  A blocked first token is rejected whatever the
    other tokens are; when the first token is not blocked, the blocked
    set has no further effect on the outcome. *)
Theorem ValidateCommand_blocked_first_token_only :
  forall (wd : option string) (first : string) (rest : list string) (sec : Security),
    (In (FilePath.Base first) (BlockedCommands sec) ->
     ValidateCommand wd (first :: rest) sec
     = Some ("command '" ++ FilePath.Base first ++ "' is blocked")) /\
    (~ In (FilePath.Base first) (BlockedCommands sec) ->
     ValidateCommand wd (first :: rest) sec
     = ValidateCommand wd (first :: rest)
         (mkSecurity (AllowedPaths sec) [] (MaxOutputSize sec) (RateLimit sec)
                     (DisableInjectionCheck sec))).
Proof.
  intros wd first rest sec. split; intros Hb; simpl.
  - apply IsCommandBlocked_In in Hb. rewrite Hb. reflexivity.
  - destruct (Config.IsCommandBlocked (FilePath.Base first) (BlockedCommands sec)) eqn:E.
    + apply IsCommandBlocked_In in E. contradiction.
    + reflexivity.
Qed.

(** C3: a blocked command in a later token is not rejected. *)
Lemma ValidateCommand_later_blocked_token_accepted :
  ValidateCommand None ["echo"; "rm"] (mkSecurity [] ["rm"] 0 "" false) = None.
Proof. reflexivity. Qed.

(** C4: IsPathAllowed admits everything for an empty allowed set, and
    otherwise exactly the paths whose absolute form has the absolute form
    of an allowed entry as a string prefix; "/home/user" admits
    "/home/user2". *)
Theorem IsPathAllowed_spec :
  forall (wd : option string) (path : string) (allowed : list string),
    (allowed = [] -> Config.IsPathAllowed wd path allowed = true) /\
    (allowed <> [] ->
     (Config.IsPathAllowed wd path allowed = true <->
      exists absPath entry absAllowed,
        FilePath.Abs wd path = Some absPath /\ In entry allowed /\
        FilePath.Abs wd entry = Some absAllowed /\ HasPrefix absPath absAllowed = true)) /\
    Config.IsPathAllowed wd "/home/user2" ["/home/user"] = true.
Proof.
  intros wd path allowed. split; [|split].
  - intros ->. reflexivity.
  - intros Hne. unfold Config.IsPathAllowed.
    destruct allowed as [|a0 l]; [congruence|].
    destruct (FilePath.Abs wd path) as [absPath|] eqn:Ep.
    + rewrite existsb_exists. split.
      * intros (e & Hin & He).
        destruct (FilePath.Abs wd e) as [absAllowed|] eqn:Ea; [|discriminate].
        exists absPath, e, absAllowed. auto.
      * intros (ap & e & aa & Hp & Hin & Ha & Hpre).
        injection Hp as <-. exists e. split; [exact Hin|]. rewrite Ha. exact Hpre.
    + split; [discriminate|].
      intros (ap & e & aa & Hp & _). discriminate.
  - reflexivity.
Qed.

End SandboxFacts.

(* ------------------------------------------------------------------ *)
(** ** CommandBuilder properties *)

Module BuilderFacts.
Import GoStr Builder Typing.

Section BuilderFacts.
Context {F : Type} `{GoFloat F}.

Lemma formatValue_string_ok (v : goval F) :
  formatValue "string" v = Ok (match v with VString s => s | _ => Sprint v end).
Proof. destruct v; reflexivity. Qed.









(** C9: an array argument given a non-list value is built as a
    one-element array: the flag once with the value as a string, or the
    flag and value concatenated when the flag contains "=". *)
Theorem buildFlag_array_scalar (arg : Argument F) (value : goval F) :
  ArgType arg = "array" ->
  (forall xs, value <> VArray xs) ->
  buildFlag arg value =
  Ok (let s := match value with VString s => s | _ => Sprint value end in
      if Contains (Flag arg) "=" then [Flag arg ++ s] else [Flag arg; s]).
Proof.
  intros Hty Hnot. unfold buildFlag. rewrite Hty. simpl.
  assert (Harr : match value with VArray xs => xs | _ => [value] end = [value]).
  { destruct value; try reflexivity. exfalso. exact (Hnot xs eq_refl). }
  rewrite Harr. simpl. rewrite formatValue_string_ok. simpl.
  rewrite app_nil_r. reflexivity.
Qed.


End BuilderFacts.
End BuilderFacts.

(* ------------------------------------------------------------------ *)
(** ** Output parser properties *)

Module ParserFacts.
Import Parser Typing.

Section ParserFacts.
Context {F : Type} `{GoFloat F} `{RegexEngine}.

Lemma map_set_keys {A} (r : list (string * A)) (k k' : string) (v : A) :
  In k (map fst (map_set r k' v)) <-> k = k' \/ In k (map fst r).
Proof.
  induction r as [|[k0 v0] r IH]; simpl.
  - intuition congruence.
  - destruct (String.eqb k' k0) eqn:E.
    + apply String.eqb_eq in E. subst k0. simpl. intuition congruence.
    + simpl. rewrite IH. intuition congruence.
Qed.

Lemma named_groups_keys (groups : list Group) (m : list string) :
  forall (i : nat) (r : list (string * goval F)) (k : string),
    In k (map fst (named_groups i groups m r)) <->
    In k (map fst r) \/
    exists j g, nth_error groups j = Some g /\ GroupName g = k /\ i + j + 1 < length m.
Proof.
  induction groups as [|g gs IH]; intros i r k; simpl.
  - split; [tauto|]. intros [Hr|(j & g & Hj & _)]; [exact Hr|].
    destruct j; discriminate.
  - rewrite IH. split.
    + intros [Hr|(j & g' & Hj & Hk & Hlt)].
      * destruct (Nat.ltb (i + 1) (length m)) eqn:Elt; [|tauto].
        apply map_set_keys in Hr. destruct Hr as [->|Hr]; [|tauto].
        right. exists 0, g. apply Nat.ltb_lt in Elt.
        repeat split; try reflexivity; lia.
      * right. exists (S j), g'. repeat split; [exact Hj | exact Hk | lia].
    + intros [Hr|(j & g' & Hj & Hk & Hlt)].
      * left. destruct (Nat.ltb (i + 1) (length m)); [|exact Hr].
        apply map_set_keys. right. exact Hr.
      * destruct j as [|j].
        -- injection Hj as <-. left.
           assert (Elt : Nat.ltb (i + 1) (length m) = true) by (apply Nat.ltb_lt; lia).
           rewrite Elt. apply map_set_keys. left. symmetry. exact Hk.
        -- right. exists j, g'. repeat split; [exact Hj | exact Hk | lia].
Qed.

Lemma named_groups_past_end (groups : list Group) (m : list string) :
  forall (i : nat) (r : list (string * goval F)),
    length m <= i + 1 -> named_groups i groups m r = r.
Proof.
  induction groups as [|g gs IH]; intros i r Hle; simpl; [reflexivity|].
  assert (E : Nat.ltb (i + 1) (length m) = false) by (apply Nat.ltb_ge; exact Hle).
  rewrite E. apply IH. lia.
Qed.

Lemma named_groups_firstn (groups : list Group) (m : list string) (n : nat) :
  length m = S n ->
  forall (k i : nat) (r : list (string * goval F)),
    i + k = n -> named_groups i groups m r = named_groups i (firstn k groups) m r.
Proof.
  intros Hlen. induction groups as [|g gs IH]; intros k i r Hik.
  - destruct k; reflexivity.
  - destruct k as [|k].
    + simpl. rewrite named_groups_past_end by lia.
      assert (E : Nat.ltb (i + 1) (length m) = false) by (apply Nat.ltb_ge; lia).
      rewrite E. reflexivity.
    + simpl. apply IH. lia.
Qed.

Lemma match_object_firstn (groups : list Group) (m : list string) (n : nat) :
  length m = S n -> match_object groups m = match_object (firstn n groups) m.
Proof.
  intros Hlen. destruct groups as [|g gs].
  - destruct n; reflexivity.
  - destruct n as [|n].
    + simpl. destruct m as [|x [|y m']]; simpl in Hlen; try discriminate.
      rewrite named_groups_past_end by (simpl; lia). reflexivity.
    + unfold match_object. simpl firstn.
      f_equal. apply (named_groups_firstn (g :: gs) m (S n) Hlen (S n) 0). lia.
Qed.

Lemma fold_results_ext (f g : list string -> goval F) (ms : list (list string)) :
  forall acc, (forall m, In m ms -> f m = g m) ->
  fold_left (fun results m => slice_append results (f m)) ms acc =
  fold_left (fun results m => slice_append results (g m)) ms acc.
Proof.
  induction ms as [|m ms IH]; intros acc Hfg; simpl; [reflexivity|].
  rewrite (Hfg m (or_introl eq_refl)). apply IH.
  intros m' Hm'. apply Hfg. right. exact Hm'.
Qed.

(** C2: with a non-empty pattern that compiles and has no match, the
    [results] slice stays nil and parseRegex returns the JSON text "null". *)
Theorem parseRegex_no_match_null (output pattern : string) (groups : list Group)
    (re : Regexp) :
  pattern <> "" ->
  Compile pattern = Some re ->
  FindAllStringSubmatch re output = [] ->
  parseRegex output pattern groups = Ok "null".
Proof.
  intros Hne Hc Hm. unfold parseRegex.
  destruct (String.eqb pattern "") eqn:E.
  - apply String.eqb_eq in E. contradiction.
  - rewrite Hc, Hm. reflexivity.
Qed.

(** C10: with named groups declared, group [i] gives a key of a match's
    object exactly when [i+1 < len(match)]; when every match has [n+1]
    entries, parseRegex gives the same result as with the first [n]
    declared groups only, so excess groups are omitted without error. *)
Theorem parseRegex_excess_groups_omitted (output pattern : string)
    (groups : list Group) (re : Regexp) (n : nat) :
  Compile pattern = Some re ->
  (forall m, In m (FindAllStringSubmatch re output) -> length m = S n) ->
  (groups <> [] ->
   forall (m : list string) (k : string),
     In k (object_keys (match_object groups m)) <->
     exists i g, nth_error groups i = Some g /\ GroupName g = k /\ i + 1 < length m) /\
  parseRegex output pattern groups = parseRegex output pattern (firstn n groups).
Proof.
  intros Hc Hlen. split.
  - intros Hne m k. destruct groups as [|g gs]; [congruence|].
    unfold match_object, object_keys. rewrite named_groups_keys. simpl.
    split; [intros [[]|H']; exact H' | intros H'; right; exact H'].
  - unfold parseRegex. destruct (String.eqb pattern ""); [reflexivity|].
    rewrite Hc. rewrite (fold_results_ext _ (match_object (firstn n groups))).
    + reflexivity.
    + intros m Hm. apply match_object_firstn. apply Hlen. exact Hm.
Qed.

End ParserFacts.
End ParserFacts.

(* ------------------------------------------------------------------ *)
(** ** Executor and server properties *)

Module ExecFacts.
Import GoStr Exec ChainRuns.

Lemma length_append (a b : string) :
  String.length (a ++ b) = String.length a + String.length b.
Proof. induction a as [|c a IH]; simpl; [reflexivity | rewrite IH; reflexivity]. Qed.

Lemma length_substring_prefix (n : nat) (s : string) :
  n <= String.length s -> String.length (substring 0 n s) = n.
Proof.
  revert s. induction n as [|n IH]; intros s Hle; [destruct s; reflexivity|].
  destruct s as [|c s]; simpl in *; [lia|].
  rewrite IH by lia. reflexivity.
Qed.

Section ExecFacts.
Context {F : Type} `{GoFloat F} `{RegexEngine} `{OtherParsers} `{ProcessEnv}.

Lemma chain_loop_first_failure (cfg : Config F) (args : gmap string (goval F))
    (w : World) (pre : list Chain) (w1 : World) (cmds : list Cmd) (outs : list string) :
  steps_ok cfg args w pre w1 cmds outs ->
  forall (i : nat) (acc : list string) (log : list Cmd) (step : Chain) (post : list Chain)
         (w2 : World) (r : RunResult) (e : RunError),
    run w1 (chain_cmd cfg args (Environ w1) step) = (w2, r) ->
    RunErr r = Some e ->
    chain_loop cfg args i (app pre (step :: post)) acc (w, log) =
    ((Join (app acc outs) nl,
      Some ("chain step " ++ Itoa (Z.of_nat (i + length pre + 1)) ++ " failed: "
            ++ RunErrorString e)),
     (w2, app log (app cmds [chain_cmd cfg args (Environ w1) step]))).
Proof.
  induction 1 as [w|w s0 rest w1' r0 w2' cmds' outs' Hrun0 Hok0 Hsteps IH];
    intros i acc log step post w2 r e Hrun Herr.
  - simpl. unfold bind, environ, exec. simpl. rewrite Hrun. simpl. rewrite Herr.
    rewrite app_nil_r, Nat.add_0_r. reflexivity.
  - simpl. unfold bind at 1, environ at 1. simpl.
    unfold bind at 1, exec at 1. rewrite Hrun0. simpl. rewrite Hok0.
    rewrite (IH (S i) (app acc [combined r0]) (app log [chain_cmd cfg args (Environ w) s0])
                step post w2 r e Hrun Herr).
    rewrite <- !app_assoc. simpl.
    replace (Z.of_nat (S (i + length rest + 1)))
      with (Z.of_nat (i + S (length rest) + 1)) by (f_equal; lia).
    reflexivity.
Qed.

(** C6: if steps 1..k-1 of a chain succeed and step k fails, ExecuteChain
    starts exactly the processes of steps 1..k, in order, and returns the
    newline-joined outputs of steps 1..k-1 with an error naming step k. *)
Theorem ExecuteChain_first_failure (cfg : Config F) (args : gmap string (goval F))
    (pre : list Chain) (step : Chain) (post : list Chain)
    (w w1 w2 : World) (log cmds : list Cmd) (outs : list string)
    (r : RunResult) (e : RunError) :
  steps_ok cfg args w pre w1 cmds outs ->
  run w1 (chain_cmd cfg args (Environ w1) step) = (w2, r) ->
  RunErr r = Some e ->
  ExecuteChain cfg (app pre (step :: post)) args (w, log) =
  ((Join outs nl,
    Some ("chain step " ++ Itoa (Z.of_nat (length pre + 1)) ++ " failed: "
          ++ RunErrorString e)),
   (w2, app log (app cmds [chain_cmd cfg args (Environ w1) step]))).
Proof.
  intros Hok Hrun Herr. unfold ExecuteChain.
  exact (chain_loop_first_failure cfg args w pre w1 cmds outs Hok 0 [] log step post
           w2 r e Hrun Herr).
Qed.

(** C7 (amended): an output longer than m > 0 bytes is cut to its first
    m bytes followed by the truncation marker (m plus the marker's length
    bytes in all); when the command did not time out, Execute returns
    that text if the command exited with an error, if the output type is
    none of json, lines, regex, csv and xml, or if the output parser fails;
    otherwise it returns the parser's output for that text. *)
Theorem Execute_truncates_output (cfg : Config F) (tool : Tool F)
    (args : gmap string (goval F)) (w w' : World) (log : list Cmd)
    (parts : list string) (r : RunResult) :
  Builder.BuildCommand cfg tool args = Ok parts ->
  Sandbox.ValidateCommand (Getwd w) parts (CfgSecurity cfg) = None ->
  run w (execute_cmd cfg parts (Getwd w) (Environ w)) = (w', r) ->
  DeadlineExceeded r = false ->
  (0 < MaxOutputSize (CfgSecurity cfg))%Z ->
  (MaxOutputSize (CfgSecurity cfg) < len (combined r))%Z ->
  let m := MaxOutputSize (CfgSecurity cfg) in
  let captured := truncate m (combined r) in
  captured = slice_to (combined r) m ++ truncationMarker /\
  len captured = (m + len truncationMarker)%Z /\
  (RunErr r <> None \/
   ~ In (OutType (ToolOutput tool)) ["json"; "lines"; "regex"; "csv"; "xml"] \/
   (exists msg, Parser.ParseOutput captured (ToolOutput tool) = Err msg) ->
   fst (fst (Execute cfg tool args (w, log))) = captured) /\
  (RunErr r = None -> forall parsed,
   Parser.ParseOutput captured (ToolOutput tool) = Ok parsed ->
   fst (fst (Execute cfg tool args (w, log))) = parsed).
Proof.
  intros Hb Hv Hrun Hdl Hpos Hlong m captured.
  assert (Hex : Execute cfg tool args (w, log) =
    (match RunErr r with
     | Some (ExitError code) => (captured, Some ("command failed with exit code " ++ Itoa code))
     | Some e => (captured, Some ("command failed: " ++ RunErrorString e))
     | None =>
         match Parser.ParseOutput captured (ToolOutput tool) with
         | Ok parsedOutput => (parsedOutput, None)
         | Err _ => (captured, None)
         end
     end, (w', app log [execute_cmd cfg parts (Getwd w) (Environ w)]))).
  { unfold Execute. rewrite Hb.
    unfold bind at 1, getwd. simpl. rewrite Hv.
    unfold bind at 1, environ. simpl. unfold bind, exec. rewrite Hrun. simpl.
    rewrite Hdl. fold m. fold captured.
    destruct (RunErr r) as [[]|]; [reflexivity .. |].
    destruct (Parser.ParseOutput captured (ToolOutput tool)); reflexivity. }
  assert (Hcap : captured = slice_to (combined r) m ++ truncationMarker).
  { unfold captured, truncate, m.
    rewrite (proj2 (Z.ltb_lt _ _) Hpos), (proj2 (Z.ltb_lt _ _) Hlong). reflexivity. }
  split; [exact Hcap|]. split; [|split].
  - rewrite Hcap. unfold len, slice_to. rewrite length_append, Nat2Z.inj_add.
    rewrite length_substring_prefix.
    + rewrite Z2Nat.id by lia. reflexivity.
    + unfold len in Hlong. lia.
  - intros Hcase. unfold Execute. rewrite Hb.
    unfold bind at 1, getwd. simpl. rewrite Hv.
    unfold bind at 1, environ. simpl. unfold bind, exec. rewrite Hrun. simpl.
    rewrite Hdl. fold m. fold captured.
    destruct (RunErr r) as [re|] eqn:Er.
    + destruct re; reflexivity.
    + destruct Hcase as [Hne | [Hty | (msg & Hp)]]; [congruence| |].
      * assert (Hraw : Parser.ParseOutput captured (ToolOutput tool) = Ok captured).
        { unfold Parser.ParseOutput.
          destruct (String.eqb (OutType (ToolOutput tool)) "json") eqn:E1;
            [apply String.eqb_eq in E1; exfalso; apply Hty; rewrite E1; simpl; tauto|].
          destruct (String.eqb (OutType (ToolOutput tool)) "lines") eqn:E2;
            [apply String.eqb_eq in E2; exfalso; apply Hty; rewrite E2; simpl; tauto|].
          destruct (String.eqb (OutType (ToolOutput tool)) "regex") eqn:E3;
            [apply String.eqb_eq in E3; exfalso; apply Hty; rewrite E3; simpl; tauto|].
          destruct (String.eqb (OutType (ToolOutput tool)) "csv") eqn:E4;
            [apply String.eqb_eq in E4; exfalso; apply Hty; rewrite E4; simpl; tauto|].
          destruct (String.eqb (OutType (ToolOutput tool)) "xml") eqn:E5;
            [apply String.eqb_eq in E5; exfalso; apply Hty; rewrite E5; simpl; tauto|].
          reflexivity. }
        rewrite Hraw. reflexivity.
      * rewrite Hp. reflexivity.
  - intros Hn parsed Hp. rewrite Hex, Hn, Hp. reflexivity.
Qed.

End ExecFacts.
End ExecFacts.

Module ServerFacts.
Import Exec Mcp.

Section ServerFacts.
Context {F : Type} `{GoFloat F} `{RegexEngine} `{OtherParsers} `{ProcessEnv}.

Lemma NewServer_lookup_None (cfgs : list (Config F)) (name : string) :
  (forall cfg tool, In cfg cfgs -> In tool (Tools cfg) -> fullName cfg tool <> name) ->
  tools (NewServer cfgs) !! name = None.
Proof.
  intros Hnot. unfold NewServer. simpl.
  assert (Hin : forall (ts : list (Tool F)) (cfg : Config F) (m : gmap string (Tool F)),
             (forall tool, In tool ts -> fullName cfg tool <> name) ->
             m !! name = None ->
             fold_left (fun m tool => <[fullName cfg tool := tool]> m) ts m !! name = None).
  { induction ts as [|t ts IH]; intros cfg m Hts Hm; simpl; [exact Hm|].
    apply IH; [intros tool Ht; apply Hts; right; exact Ht|].
    rewrite lookup_insert_ne; [exact Hm|]. apply Hts. left. reflexivity. }
  assert (Hout : forall (cs : list (Config F)) (m : gmap string (Tool F)),
             (forall cfg tool, In cfg cs -> In tool (Tools cfg) -> fullName cfg tool <> name) ->
             m !! name = None ->
             fold_left (fun m cfg =>
                          fold_left (fun m tool => <[fullName cfg tool := tool]> m) (Tools cfg) m)
                       cs m !! name = None).
  { induction cs as [|c cs IH]; intros m Hcs Hm; simpl; [exact Hm|].
    apply IH; [intros cfg tool Hc Ht; apply (Hcs cfg tool); [right; exact Hc | exact Ht]|].
    apply Hin; [|exact Hm]. intros tool Ht. apply (Hcs c tool); [left; reflexivity | exact Ht]. }
  apply Hout; [exact Hnot|]. apply lookup_empty.
Qed.

(** C8: a tools/call request naming a tool that no loaded catalog
    declares is answered with the JSON-RPC error -32602 and the message
    "Tool not found: <name>", and no process is started (world and
    process log are unchanged). *)
Theorem handleRequest_unknown_tool
    (handleOther : Server -> Request -> M Response)
    (cfgs : list (Config F)) (req : Request) (name : string)
    (args : gmap string (goval F)) (w : World) (log : list Cmd) :
  Method req = "tools/call" ->
  Params req = Ok (mkToolCallParams name args) ->
  (forall cfg tool, In cfg cfgs -> In tool (Tools cfg) -> fullName cfg tool <> name) ->
  handleRequest handleOther (NewServer cfgs) req (w, log) =
  (mkResponse "2.0" (ReqID req) None
     (Some (mkErrorResponse (-32602) ("Tool not found: " ++ name) VNil)),
   (w, log)).
Proof.
  intros Hm Hp Hnot. unfold handleRequest. rewrite Hm. cbv beta iota zeta.
  rewrite String.eqb_refl.
  unfold handleToolCall. rewrite Hp. cbv beta iota.
  unfold PName. rewrite (NewServer_lookup_None cfgs name Hnot). reflexivity.
Qed.

End ServerFacts.
End ServerFacts.

(* ------------------------------------------------------------------ *)
(** ** The statements run on concrete inputs *)

Module Examples.
Import GoStr Exec Concrete.

(** C2: pattern "zz" has no match in "abc"; the result is "null". *)
Lemma parseRegex_no_match_null_witness :
  Parser.parseRegex (F := Z) "abc" "zz" [] = Ok "null".
Proof.
  apply (ParserFacts.parseRegex_no_match_null "abc" "zz" [] ("zz" : @Regexp LiteralRegex)).
  - discriminate.
  - reflexivity.
  - reflexivity.
Defined.



(** C6: steps "one", "fail", "three"; the second fails. *)
Lemma ExecuteChain_first_failure_witness :
  ExecuteChain (ex_cfg 0 []) [ex_step "one"; ex_step "fail"; ex_step "three"] ex_chain_args
    (0, [])
  = ((Join ["one"] nl,
      Some ("chain step " ++ Itoa (Z.of_nat (length [ex_step "one"] + 1)) ++ " failed: "
            ++ RunErrorString (ExitError 1))),
     (2, app [] (app [chain_cmd (ex_cfg 0 []) ex_chain_args [] (ex_step "one")]
                     [chain_cmd (ex_cfg 0 []) ex_chain_args [] (ex_step "fail")]))).
Proof.
  apply (ExecFacts.ExecuteChain_first_failure (ex_cfg 0 []) ex_chain_args
           [ex_step "one"] (ex_step "fail") [ex_step "three"] (0 : @World CountingWorld) 1 2 []
           [chain_cmd (ex_cfg 0 []) ex_chain_args [] (ex_step "one")] ["one"]
           (mkRunResult "" "boom" (Some (ExitError 1)) false) (ExitError 1)).
  - change ["one"] with [combined (mkRunResult "one" "" None false)].
    apply ChainRuns.steps_ok_cons with (w1 := 1).
    + reflexivity.
    + reflexivity.
    + apply ChainRuns.steps_ok_nil.
  - reflexivity.
  - reflexivity.
Defined.

(** C7: "abcdef" with a 3-byte limit and the "lines" output type: the
    parsed output is neither the cut text nor within the bound. *)
Lemma Execute_lines_output_not_cut_text :
  let out := fst (fst (Execute (ex_cfg 3 [ex_lines_tool]) ex_lines_tool ∅ (0, []))) in
  (3 < len "abcdef")%Z /\
  out <> slice_to "abcdef" 3 ++ truncationMarker /\
  (3 + len truncationMarker < len out)%Z.
Proof.
  split; [|split].
  - vm_compute. reflexivity.
  - vm_compute. discriminate.
  - vm_compute. reflexivity.
Qed.

Lemma Execute_truncates_output_witness :
  fst (fst (Execute (ex_cfg 3 [ex_raw_tool]) ex_raw_tool ∅ (0, [])))
  = truncate 3 (combined (mkRunResult "abcdef" "" None false)) /\
  exists parsed,
    Parser.ParseOutput (truncate 3 (combined (mkRunResult "abcdef" "" None false)))
                       (ToolOutput ex_lines_tool) = Ok parsed /\
    fst (fst (Execute (ex_cfg 3 [ex_lines_tool]) ex_lines_tool ∅ (0, []))) = parsed.
Proof.
  split.
  - pose proof (ExecFacts.Execute_truncates_output (ex_cfg 3 [ex_raw_tool]) ex_raw_tool ∅
                  (0 : @World CountingWorld) 1 [] ["echo"; "abcdef"]
                  (mkRunResult "abcdef" "" None false)
                  eq_refl eq_refl eq_refl eq_refl eq_refl eq_refl) as (_ & _ & Hc & _).
    apply Hc. right. left. simpl. intuition discriminate.
  - pose proof (ExecFacts.Execute_truncates_output (ex_cfg 3 [ex_lines_tool]) ex_lines_tool ∅
                  (0 : @World CountingWorld) 1 [] ["echo"; "abcdef"]
                  (mkRunResult "abcdef" "" None false)
                  eq_refl eq_refl eq_refl eq_refl eq_refl eq_refl) as (_ & _ & _ & Hp).
    eexists. split; [vm_compute; reflexivity|].
    apply Hp; [reflexivity | vm_compute; reflexivity].
Defined.

(** C8: the catalog "demo" declares "show"; "foo_bar" is unknown. *)
Lemma handleRequest_unknown_tool_witness :
  Mcp.handleRequest ex_handleOther (Mcp.NewServer [ex_cfg 0 [ex_tool]]) (ex_request "foo_bar")
    (0, [])
  = (Mcp.mkResponse "2.0" (VInt 1) None
       (Some (Mcp.mkErrorResponse (-32602) ("Tool not found: " ++ "foo_bar") VNil)),
     (0, [])).
Proof.
  apply (ServerFacts.handleRequest_unknown_tool ex_handleOther [ex_cfg 0 [ex_tool]]
           (ex_request "foo_bar") "foo_bar" ∅ (0 : @World CountingWorld) []).
  - reflexivity.
  - reflexivity.
  - intros cfg tool Hc Ht. simpl in Hc. destruct Hc as [<-|[]].
    simpl in Ht. destruct Ht as [<-|[]]. vm_compute. discriminate.
Defined.

(** C9: the array argument "tags" (flag "--tag=") given the number 3. *)
Lemma buildFlag_array_scalar_witness :
  Builder.buildFlag ex_tags (VInt 3) = Ok ["--tag=3"].
Proof.
  rewrite (BuilderFacts.buildFlag_array_scalar ex_tags (VInt 3)).
  - reflexivity.
  - reflexivity.
  - intros xs. discriminate.
Defined.

(** C10: two groups declared, the literal pattern "ab" has no capture. *)
Lemma parseRegex_excess_groups_omitted_witness :
  Parser.parseRegex (F := Z) "xabyab" "ab" ex_groups
  = Parser.parseRegex "xabyab" "ab" (firstn 0 ex_groups).
Proof.
  assert (Hlen : forall m, In m (FindAllStringSubmatch ("ab" : @Regexp LiteralRegex) "xabyab") ->
                           length m = 1).
  { intros m Hm. vm_compute in Hm. destruct Hm as [<-|[<-|[]]]; reflexivity. }
  exact (proj2 (ParserFacts.parseRegex_excess_groups_omitted (F := Z)
                  "xabyab" "ab" ex_groups ("ab" : @Regexp LiteralRegex) 0 eq_refl Hlen)).
Defined.

End Examples.

(* ------------------------------------------------------------------ *)
(** ** Further properties: paths and the sandbox *)

Module PathFacts.
Import GoStr FilePath.

Lemma HasPrefix_refl (s : string) : HasPrefix s s = true.
Proof. induction s as [|c s IH]; simpl; [reflexivity|]. rewrite Ascii.eqb_refl. exact IH. Qed.

Lemma IsAbs_cons (c : ascii) (s t : string) : IsAbs (String c s) = IsAbs (String c t).
Proof. destruct s, t; reflexivity. Qed.

Lemma Clean_rooted (path : string) : IsAbs path = true -> IsAbs (Clean path) = true.
Proof.
  intros H. unfold Clean. rewrite H. simpl.
  destruct (Join (rev (clean_elems true [] (Split path slash))) "/"); reflexivity.
Qed.

Lemma drop_slashes_head (l : list ascii) (c : ascii) (r : list ascii) :
  drop_slashes l = c :: r -> Ascii.eqb c slash = false.
Proof.
  induction l as [|d l IH]; simpl; [discriminate|].
  destruct (Ascii.eqb d slash) eqn:E; [exact IH|]. intros Heq. injection Heq as <- _. exact E.
Qed.

Lemma take_until_slash_no_slash (l : list ascii) : ~ In slash (take_until_slash l).
Proof.
  induction l as [|d l IH]; simpl; [tauto|].
  destruct (Ascii.eqb d slash) eqn:E; simpl; [tauto|].
  intros [Hd|Hin]; [subst d; rewrite Ascii.eqb_refl in E; discriminate | exact (IH Hin)].
Qed.

(** filepath.Abs returns an absolute path (one starting with "/")
    whenever os.Getwd, if it succeeds, returns an absolute directory. *)
Theorem Abs_absolute (getwd : option string) (path p : string) :
  (forall d, getwd = Some d -> IsAbs d = true) ->
  Abs getwd path = Some p -> IsAbs p = true.
Proof.
  intros Hwd. unfold Abs.
  destruct (IsAbs path) eqn:Ea.
  - intros Hp. injection Hp as <-. apply Clean_rooted. exact Ea.
  - destruct getwd as [wd|]; [|discriminate].
    intros Hp. injection Hp as <-. specialize (Hwd wd eq_refl).
    unfold Join2.
    destruct wd as [|c wd]; [discriminate|]. simpl String.eqb. cbv iota.
    destruct (String.eqb path "") eqn:Ep.
    + apply Clean_rooted. exact Hwd.
    + apply Clean_rooted.
      change (String c wd ++ "/" ++ path) with (String c (wd ++ "/" ++ path)).
      rewrite (IsAbs_cons c _ wd). exact Hwd.
Qed.

(** filepath.Base never returns the empty string, and its result is
    "/" or contains no "/". *)
Theorem Base_single_element (path : string) :
  Base path <> "" /\
  (Base path = "/" \/ ~ In slash (list_ascii_of_string (Base path))).
Proof.
  unfold Base. destruct (String.eqb path "") eqn:E.
  - split; [discriminate|]. right. simpl. intros [H|[]]. discriminate.
  - destruct (drop_slashes (rev (list_ascii_of_string path))) as [|c r] eqn:Ed.
    + split; [discriminate | left; reflexivity].
    + pose proof (drop_slashes_head _ _ _ Ed) as Hc.
      simpl. rewrite Hc. simpl.
      rewrite list_ascii_of_string_of_list_ascii.
      split.
      * destruct (rev (take_until_slash r)) as [|x xs]; simpl; discriminate.
      * right. intros Hin. apply in_app_or in Hin. destruct Hin as [Hin|[Hin|[]]].
        -- apply in_rev in Hin. exact (take_until_slash_no_slash r Hin).
        -- subst c. rewrite Ascii.eqb_refl in Hc. discriminate.
Qed.

(** An entry of a non-empty allowed list admits itself (when its
    absolute form exists), and extending a non-empty allowed list never
    revokes a path; the empty list, which admits everything, is the
    exception. *)
Theorem IsPathAllowed_entry_and_extend (wd : option string) (entry path : string)
    (allowed more : list string) :
  (In entry allowed -> Abs wd entry <> None ->
   Config.IsPathAllowed wd entry allowed = true) /\
  (allowed <> [] -> Config.IsPathAllowed wd path allowed = true ->
   Config.IsPathAllowed wd path (app allowed more) = true).
Proof.
  split.
  - intros Hin Habs. unfold Config.IsPathAllowed.
    destruct allowed as [|a l]; [destruct Hin|].
    destruct (Abs wd entry) as [ae|] eqn:Ee; [|congruence].
    apply existsb_exists. exists entry. split; [exact Hin|].
    rewrite Ee. apply HasPrefix_refl.
  - intros Hne. unfold Config.IsPathAllowed.
    destruct allowed as [|a l]; [congruence|]. simpl app.
    destruct (Abs wd path) as [ap|]; [|discriminate].
    intros Hex. apply existsb_exists in Hex. destruct Hex as (x & Hx & Hp).
    apply existsb_exists. exists x. split; [|exact Hp].
    change (In x (app (a :: l) more)). apply in_or_app. left. exact Hx.
Qed.

End PathFacts.

Module SandboxFacts2.
Import GoStr Sandbox.

Lemma existsb_false_Forall {A} (f : A -> bool) (l : list A) :
  existsb f l = false <-> Forall (fun x => f x = false) l.
Proof.
  induction l as [|x l IH]; simpl.
  - split; [constructor | reflexivity].
  - rewrite orb_false_iff, IH. split.
    + intros [H1 H2]. constructor; assumption.
    + intros H'. inversion H'. split; assumption.
Qed.

Lemma check_paths_None (wd : option string) (allowed parts : list string) :
  check_paths wd allowed parts = None <->
  Forall (fun p => looksLikeFilePath p = true -> Config.IsPathAllowed wd p allowed = true) parts.
Proof.
  induction parts as [|p ps IH]; simpl.
  - split; [constructor | reflexivity].
  - destruct (looksLikeFilePath p) eqn:El; destruct (Config.IsPathAllowed wd p allowed) eqn:Ea;
      simpl; rewrite ?IH.
    + split; [intros H'; constructor; [intros _; exact Ea | exact H'] |
              intros H'; inversion H'; assumption].
    + split; [discriminate|]. intros H'. inversion H' as [|? ? Hp]. rewrite (Hp El) in Ea.
      discriminate.
    + split; [intros H'; constructor; [intros Hf; congruence | exact H'] |
              intros H'; inversion H'; assumption].
    + split; [intros H'; constructor; [intros Hf; congruence | exact H'] |
              intros H'; inversion H'; assumption].
Qed.

(** ValidateCommand accepts a command exactly when it is non-empty, the
    basename of its first token is not blocked, no token (the first
    included) contains a dangerous pattern, and every later token that
    looks like a file path is in the allowed paths. *)
Theorem ValidateCommand_accepts_iff (wd : option string) (parts : list string)
    (sec : Security) :
  ValidateCommand wd parts sec = None <->
  exists first rest,
    parts = first :: rest /\
    ~ In (FilePath.Base first) (BlockedCommands sec) /\
    Forall (fun p => hasInjectionPattern p = false) parts /\
    Forall (fun p => looksLikeFilePath p = true ->
                     Config.IsPathAllowed wd p (AllowedPaths sec) = true) rest.
Proof.
  destruct parts as [|first rest]; simpl.
  - split; [discriminate|]. intros (f & r & Heq & _). discriminate.
  - destruct (Config.IsCommandBlocked (FilePath.Base first) (BlockedCommands sec)) eqn:Eb.
    + split; [discriminate|]. intros (f & r & Heq & Hnb & _). injection Heq as <- <-.
      apply SandboxFacts.IsCommandBlocked_In in Eb. contradiction.
    + destruct (hasInjectionPattern first || existsb hasInjectionPattern rest) eqn:Ei.
      * split; [discriminate|]. intros (f & r & Heq & _ & Hinj & _). injection Heq as <- <-.
        assert (Hf : existsb hasInjectionPattern (first :: rest) = false)
          by (apply existsb_false_Forall; exact Hinj).
        simpl in Hf. congruence.
      * rewrite check_paths_None. split.
        -- intros Hp. exists first, rest. split; [reflexivity|]. split.
           ++ intros Hin. apply SandboxFacts.IsCommandBlocked_In in Hin. congruence.
           ++ split; [|exact Hp]. apply existsb_false_Forall. exact Ei.
        -- intros (f & r & Heq & _ & _ & Hp). injection Heq as <- <-. exact Hp.
Qed.

End SandboxFacts2.

(* ------------------------------------------------------------------ *)
(** ** Configuration loading properties *)

Module LoaderFacts.
Import Loader LoaderPreds.

Section LoaderFacts.
Context {F : Type}.

Lemma default_string_idem (x d : string) :
  String.eqb d "" = false ->
  (if String.eqb (if String.eqb x "" then d else x) "" then d
   else if String.eqb x "" then d else x) = (if String.eqb x "" then d else x).
Proof. intros Hd. destruct (String.eqb x "") eqn:E; [rewrite Hd | rewrite E]; reflexivity. Qed.

Lemma default_Z_idem (x d : Z) :
  (d =? 0)%Z = false ->
  (if ((if (x =? 0)%Z then d else x) =? 0)%Z then d
   else if (x =? 0)%Z then d else x) = (if (x =? 0)%Z then d else x).
Proof. intros Hd. destruct (x =? 0)%Z eqn:E; [rewrite Hd | rewrite E]; reflexivity. Qed.

Lemma default_argument_idem (arg : Argument F) :
  default_argument (default_argument arg) = default_argument arg.
Proof.
  destruct arg. unfold default_argument. simpl.
  rewrite default_string_idem by reflexivity. reflexivity.
Qed.

Lemma default_tool_idem (tool : Tool F) : default_tool (default_tool tool) = default_tool tool.
Proof.
  destruct tool as [n d c args [ot p g j] ch]. unfold default_tool. simpl.
  rewrite default_string_idem by reflexivity.
  rewrite map_map. rewrite (map_ext _ _ default_argument_idem). reflexivity.
Qed.

Lemma valid_In (set : list string) (s : string) : valid set s = true <-> In s set.
Proof.
  unfold valid. rewrite existsb_exists. split.
  - intros (x & Hx & E). apply String.eqb_eq in E. subst. exact Hx.
  - intros Hin. exists s. split; [exact Hin | apply String.eqb_refl].
Qed.

Lemma neq_of_eqb (s t : string) : String.eqb s t = false -> s <> t.
Proof. intros E Heq. subst. rewrite String.eqb_refl in E. discriminate. Qed.

Lemma validate_args_None (name : string) (args : list (Argument F)) :
  validate_args name args = None -> Forall arg_valid args.
Proof.
  induction args as [|arg rest IH]; cbn [validate_args]; [intros _; constructor|].
  destruct (String.eqb (ArgName arg) "") eqn:E1; [discriminate|].
  destruct (valid validArgTypes (ArgType arg)) eqn:E2; cbn [negb]; [|discriminate].
  destruct (Required arg && negb (is_nil (Default arg))) eqn:E3; [discriminate|].
  intros Hv. constructor; [|exact (IH Hv)].
  split; [exact (neq_of_eqb _ _ E1)|]. split; [apply valid_In; exact E2|].
  intros Hr. rewrite Hr in E3. simpl in E3.
  destruct (Default arg); try discriminate. reflexivity.
Qed.

Lemma validate_tools_None (tools : list (Tool F)) :
  validate_tools tools = None -> Forall tool_valid tools.
Proof.
  induction tools as [|tool rest IH]; cbn [validate_tools]; [intros _; constructor|].
  destruct (String.eqb (ToolName tool) "") eqn:E1; [discriminate|].
  destruct (String.eqb (ToolDescription tool) "") eqn:E2; [discriminate|].
  destruct (valid validOutputTypes (OutType (ToolOutput tool))) eqn:E3; cbn [negb];
    [|discriminate].
  destruct (String.eqb (OutType (ToolOutput tool)) "regex" &&
            String.eqb (Pattern (ToolOutput tool)) "") eqn:E4; [discriminate|].
  destruct (validate_args (ToolName tool) (Arguments tool)) eqn:E5; [discriminate|].
  intros Hv. constructor; [|exact (IH Hv)].
  split; [exact (neq_of_eqb _ _ E1)|]. split; [exact (neq_of_eqb _ _ E2)|].
  split; [apply valid_In; exact E3|]. split.
  - intros Hr. rewrite Hr in E4. simpl in E4. exact (neq_of_eqb _ _ E4).
  - exact (validate_args_None _ _ E5).
Qed.

Lemma LoadConfig_Ok (parsed : result (Config F)) (cfg : Config F) :
  LoadConfig parsed = Ok cfg ->
  exists raw, parsed = Ok raw /\ cfg = applyDefaults raw /\ validate cfg = None.
Proof.
  unfold LoadConfig. destruct parsed as [raw|e]; [|discriminate].
  destruct (validate (applyDefaults raw)) eqn:Ev; [discriminate|].
  intros Heq. injection Heq as <-. eauto.
Qed.

(** applyDefaults is idempotent: applying the defaults to a configuration
    that already has them changes nothing. *)
Theorem applyDefaults_idempotent (c : Config F) :
  applyDefaults (applyDefaults c) = applyDefaults c.
Proof.
  destruct c as [v meta [cmd wd to env sh] [ap bc mo rl dic] ts].
  unfold applyDefaults. simpl.
  rewrite !default_string_idem by reflexivity.
  rewrite !default_Z_idem by reflexivity.
  rewrite map_map. rewrite (map_ext _ _ default_tool_idem). reflexivity.
Qed.

(** A configuration returned by LoadConfig has a catalog name, a
    command, at least one tool, a version, a working directory and
    non-zero timeout and output limit; every tool has a name, a
    description, one of the output types raw, json, lines, regex, csv
    and xml, and a pattern if its output type is regex; every argument
    has a name and one of the types string, boolean, integer, array,
    object and float, and a required argument has no default. *)
Theorem LoadConfig_guarantees (parsed : result (Config F)) (cfg : Config F) :
  LoadConfig parsed = Ok cfg ->
  MetaName (CfgMetadata cfg) <> "" /\ SetCommand (CfgSettings cfg) <> "" /\
  Tools cfg <> [] /\ Version cfg <> "" /\ WorkingDir (CfgSettings cfg) <> "" /\
  Timeout (CfgSettings cfg) <> 0%Z /\ MaxOutputSize (CfgSecurity cfg) <> 0%Z /\
  Forall tool_valid (Tools cfg).
Proof.
  intros Hl. destruct (LoadConfig_Ok _ _ Hl) as (raw & _ & -> & Hv).
  unfold validate in Hv.
  destruct (String.eqb (MetaName (CfgMetadata (applyDefaults raw))) "") eqn:E1;
    [discriminate|].
  destruct (String.eqb (SetCommand (CfgSettings (applyDefaults raw))) "") eqn:E2;
    [discriminate|].
  split; [exact (neq_of_eqb _ _ E1)|]. split; [exact (neq_of_eqb _ _ E2)|].
  split; [intros Ht; rewrite Ht in Hv; discriminate Hv|].
  split; [simpl; destruct (String.eqb (Version raw) "") eqn:E;
          [discriminate | exact (neq_of_eqb _ _ E)]|].
  split; [simpl; destruct (String.eqb (WorkingDir (CfgSettings raw)) "") eqn:E;
          [discriminate | exact (neq_of_eqb _ _ E)]|].
  split; [simpl; destruct (Timeout (CfgSettings raw) =? 0)%Z eqn:E;
          [discriminate | apply Z.eqb_neq; exact E]|].
  split; [simpl; destruct (MaxOutputSize (CfgSecurity raw) =? 0)%Z eqn:E;
          [discriminate | apply Z.eqb_neq; exact E]|].
  destruct (Tools (applyDefaults raw)) eqn:Et; [discriminate|].
  apply validate_tools_None. exact Hv.
Qed.

End LoaderFacts.
End LoaderFacts.

(* ------------------------------------------------------------------ *)
(** ** Further CommandBuilder properties *)

Module BuilderFacts2.
Import GoStr Builder.

(** the decimal digits printed by strconv.Itoa are read back by Atoi *)
Lemma digits_value_acc (d : Decimal.uint) (acc : positive) :
  digits_value (list_ascii_of_string (NilEmpty.string_of_uint d)) (Zpos acc)
  = Some (Zpos (Pos.of_uint_acc d acc)).
Proof.
  revert acc. induction d; intros acc; simpl; [reflexivity|..];
    rewrite <- IHd; f_equal;
    set (k := Z.of_nat (nat_of_ascii _)); vm_compute in k; subst k; lia.
Qed.

Lemma digits_value_uint (d : Decimal.uint) :
  digits_value (list_ascii_of_string (NilEmpty.string_of_uint d)) 0 = Some (Z.of_uint d).
Proof.
  induction d; simpl; try reflexivity; try exact IHd;
    set (k := (0 * 10 + _)%Z); vm_compute in k; subst k;
    rewrite digits_value_acc; reflexivity.
Qed.

Lemma string_of_uint_head (d : Decimal.uint) :
  d <> Decimal.Nil ->
  exists c l, list_ascii_of_string (NilEmpty.string_of_uint d) = c :: l /\
              Ascii.eqb c "-"%char = false /\ Ascii.eqb c "+"%char = false.
Proof. intros Hd. destruct d; [congruence|..]; simpl; eauto. Qed.

Lemma to_uint_not_nil (p : positive) : Pos.to_uint p <> Decimal.Nil.
Proof.
  intros E. pose proof (DecimalPos.Unsigned.of_to p) as H'. rewrite E in H'. discriminate.
Qed.

Lemma of_uint_to_uint (p : positive) : Z.of_uint (Pos.to_uint p) = Zpos p.
Proof. unfold Z.of_uint. rewrite DecimalPos.Unsigned.of_to. reflexivity. Qed.

Lemma Atoi_Itoa (z : Z) : (- 2 ^ 63 <= z < 2 ^ 63)%Z -> Atoi (Itoa z) = Some z.
Proof.
  intros Hr. destruct z as [|p|p]; [reflexivity|..].
  - change (Itoa (Zpos p)) with (NilEmpty.string_of_uint (Pos.to_uint p)).
    destruct (string_of_uint_head _ (to_uint_not_nil p)) as (c & l & Hcl & E1 & E2).
    pose proof (digits_value_uint (Pos.to_uint p)) as Hd.
    rewrite of_uint_to_uint, Hcl in Hd.
    unfold Atoi. rewrite Hcl, E1, E2. cbv beta iota zeta. rewrite Hd.
    rewrite Z.mul_1_l.
    replace ((- 2 ^ 63 <=? Zpos p)%Z && (Zpos p <? 2 ^ 63)%Z) with true
      by (symmetry; apply andb_true_iff; split; [apply Z.leb_le | apply Z.ltb_lt]; lia).
    reflexivity.
  - change (Itoa (Zneg p)) with (String "-" (NilEmpty.string_of_uint (Pos.to_uint p))).
    destruct (string_of_uint_head _ (to_uint_not_nil p)) as (c & l & Hcl & _ & _).
    pose proof (digits_value_uint (Pos.to_uint p)) as Hd.
    rewrite of_uint_to_uint, Hcl in Hd.
    unfold Atoi.
    change (list_ascii_of_string (String "-" (NilEmpty.string_of_uint (Pos.to_uint p))))
      with ("-"%char :: list_ascii_of_string (NilEmpty.string_of_uint (Pos.to_uint p))).
    rewrite Hcl, Ascii.eqb_refl. cbv beta iota zeta.
    rewrite Hd. change ((-1) * Zpos p)%Z with (Zneg p).
    replace ((- 2 ^ 63 <=? Zneg p)%Z && (Zneg p <? 2 ^ 63)%Z) with true
      by (symmetry; apply andb_true_iff; split; [apply Z.leb_le | apply Z.ltb_lt]; lia).
    reflexivity.
Qed.

Lemma Itoa_inj (a b : Z) : Itoa a = Itoa b -> a = b.
Proof.
  unfold Itoa. intros E.
  apply DecimalZ.to_int_inj.
  pose proof (NilEmpty.isi (Z.to_int a)) as Ha. pose proof (NilEmpty.isi (Z.to_int b)) as Hb.
  rewrite E in Ha. congruence.
Qed.

Section BuilderFacts2.
Context {F : Type} `{GoFloat F}.

Lemma HdRel_insert (a b : Argument F) (l : list (Argument F)) :
  HdRel (fun x y => (Position x <= Position y)%Z) b l ->
  (Position b <= Position a)%Z ->
  HdRel (fun x y => (Position x <= Position y)%Z) b (insert_by_position a l).
Proof.
  intros Hb Hba. destruct l as [|c l]; simpl.
  - constructor. exact Hba.
  - destruct (Position a <? Position c)%Z; constructor; [exact Hba|].
    inversion Hb. assumption.
Qed.

Lemma insert_sorted (a : Argument F) (l : list (Argument F)) :
  Sorted (fun x y => (Position x <= Position y)%Z) l ->
  Sorted (fun x y => (Position x <= Position y)%Z) (insert_by_position a l).
Proof.
  induction l as [|b l IH]; simpl; intros Hs.
  - constructor; constructor.
  - destruct (Position a <? Position b)%Z eqn:E.
    + constructor; [exact Hs|]. constructor. apply Z.ltb_lt in E. lia.
    + apply Sorted_inv in Hs. destruct Hs as [Hs Hhd].
      constructor; [exact (IH Hs)|]. apply HdRel_insert; [exact Hhd|].
      apply Z.ltb_ge in E. exact E.
Qed.

Lemma insert_perm (a : Argument F) (l : list (Argument F)) :
  Permutation (insert_by_position a l) (a :: l).
Proof.
  induction l as [|b l IH]; simpl; [reflexivity|].
  destruct (Position a <? Position b)%Z; [reflexivity|].
  transitivity (b :: a :: l); [constructor; exact IH | constructor].
Qed.

Lemma fold_insert_sorted_perm (l acc : list (Argument F)) :
  Sorted (fun x y => (Position x <= Position y)%Z) acc ->
  Sorted (fun x y => (Position x <= Position y)%Z)
         (fold_left (fun acc a => insert_by_position a acc) l acc) /\
  Permutation (fold_left (fun acc a => insert_by_position a acc) l acc) (app l acc).
Proof.
  revert acc. induction l as [|a l IH]; simpl; intros acc Hs; [split; [exact Hs | reflexivity]|].
  destruct (IH (insert_by_position a acc) (insert_sorted a acc Hs)) as [H1 H2].
  split; [exact H1|].
  rewrite H2. rewrite insert_perm. symmetry. apply Permutation_middle.
Qed.

(** extractPositionalArgs returns the positional arguments, each once,
    sorted by increasing Position. *)
Theorem extractPositionalArgs_sorted_perm (arguments : list (Argument F)) :
  Sorted (fun a b => (Position a <= Position b)%Z) (extractPositionalArgs arguments) /\
  Permutation (extractPositionalArgs arguments)
              (List.filter (fun a => Positional a) arguments).
Proof.
  unfold extractPositionalArgs.
  destruct (fold_insert_sorted_perm (List.filter (fun a => Positional a) arguments) [])
    as [H1 H2]; [constructor|].
  split; [exact H1|]. rewrite H2. rewrite app_nil_r. reflexivity.
Qed.

(** An array argument given as a list is passed item by item: each item,
    formatted as a string, is appended to the flag when the flag contains
    "=", and otherwise follows the flag as a separate token (an empty
    token when the argument has no flag). *)
Theorem buildFlag_array_items (arg : Argument F) (xs : list (goval F)) :
  ArgType arg = "array" ->
  buildFlag arg (VArray xs) =
  Ok (flat_map (fun x =>
                  let s := match x with VString s => s | _ => Sprint x end in
                  if Contains (Flag arg) "=" then [Flag arg ++ s] else [Flag arg; s]) xs).
Proof.
  intros Hty. unfold buildFlag. rewrite Hty. cbn -[build_items].
  induction xs as [|x xs IH]; [reflexivity|].
  cbn [build_items]. rewrite BuilderFacts.formatValue_string_ok, IH. reflexivity.
Qed.

(** strconv.Atoi reads back what strconv.Itoa prints, on the int64
    range, so formatValue leaves an integer argument given as a decimal
    string (as Itoa prints it) unchanged. *)
Theorem formatValue_integer_Itoa (z : Z) :
  (- 2 ^ 63 <= z < 2 ^ 63)%Z ->
  Atoi (Itoa z) = Some z /\ formatValue (F := F) "integer" (VString (Itoa z)) = Ok (Itoa z).
Proof.
  intros Hr. split; [exact (Atoi_Itoa z Hr)|].
  unfold formatValue. cbn -[Atoi Itoa]. rewrite (Atoi_Itoa z Hr). reflexivity.
Qed.

End BuilderFacts2.
End BuilderFacts2.

(* ------------------------------------------------------------------ *)
(** ** Further executor properties *)

Module ExecFacts2.
Import GoStr Exec ChainRuns Builder.

Lemma HasPrefix_app (s a b : string) : HasPrefix s (a ++ b) = true -> HasPrefix s a = true.
Proof.
  revert s. induction a as [|c a IH]; intros s.
  - destruct s; reflexivity.
  - destruct s as [|d s]; simpl; [discriminate|].
    intros H'. apply andb_true_iff in H'. destruct H' as [H1 H2].
    rewrite H1. exact (IH s H2).
Qed.

Lemma Contains_app (s a b : string) : Contains s (a ++ b) = true -> Contains s a = true.
Proof.
  induction s as [|c s IH]; intros H'; cbn [Contains] in H' |- *.
  - destruct a; [reflexivity | simpl in H'; discriminate H'].
  - apply orb_true_iff in H'. destruct H' as [H'|H'].
    + rewrite (HasPrefix_app _ _ _ H'). reflexivity.
    + rewrite (IH H'). apply orb_true_r.
Qed.

Lemma replace_all_fuel_absent (n : nat) (s old new : string) :
  Contains s old = false -> replace_all_fuel n s old new = s.
Proof.
  revert s. induction n as [|n IH]; intros s Hs; [reflexivity|].
  destruct s as [|c s]; [reflexivity|]. simpl in Hs |- *.
  apply orb_false_iff in Hs. destruct Hs as [H1 H2]. rewrite H1, (IH s H2). reflexivity.
Qed.

Lemma truncate_short (m : Z) (s : string) :
  (m <= 0 \/ len s <= m)%Z -> truncate m s = s.
Proof.
  intros Hm. unfold truncate.
  destruct (0 <? m)%Z eqn:E1; [|reflexivity].
  destruct (m <? len s)%Z eqn:E2; [|reflexivity].
  apply Z.ltb_lt in E1. apply Z.ltb_lt in E2. lia.
Qed.

Section ExecFacts2.
Context {F : Type} `{GoFloat F} `{RegexEngine} `{OtherParsers} `{ProcessEnv}.

Lemma chain_loop_success (cfg : Config F) (args : gmap string (goval F))
    (w : World) (steps : list Chain) (w' : World) (cmds : list Cmd) (outs : list string) :
  steps_ok cfg args w steps w' cmds outs ->
  forall (i : nat) (acc : list string) (log : list Cmd),
    chain_loop cfg args i steps acc (w, log) =
    ((Join (app acc outs) nl, None), (w', app log cmds)).
Proof.
  induction 1 as [w|w s0 rest w1 r0 w2 cmds' outs' Hrun0 Hok0 Hsteps IH]; intros i acc log.
  - simpl. rewrite !app_nil_r. reflexivity.
  - simpl. unfold bind at 1, environ at 1. simpl.
    unfold bind at 1, exec at 1. rewrite Hrun0. simpl. rewrite Hok0.
    rewrite IH. rewrite <- !app_assoc. reflexivity.
Qed.

Lemma arg_value_missing (arg : Argument F) (args : gmap string (goval F)) :
  Required arg = true -> Default arg = VNil -> args !! ArgName arg = None ->
  arg_value arg args = Err ("required argument " ++ ArgName arg ++ " not provided").
Proof. intros Hr Hd Ha. unfold arg_value. rewrite Ha, Hd, Hr. reflexivity. Qed.

Lemma build_positional_err (args : gmap string (goval F)) (ps : list (Argument F))
    (a : Argument F) (msg : string) :
  In a ps -> arg_value a args = Err msg -> exists e, build_positional args ps = Err e.
Proof.
  induction ps as [|b ps IH]; [intros []|]. intros [<-|Hin] Ha; simpl.
  - rewrite Ha. eexists. reflexivity.
  - destruct (arg_value b args) as [[v|]|e]; [| exact (IH Hin Ha) | eexists; reflexivity].
    destruct (formatValue (ArgType b) v); [|eexists; reflexivity].
    destruct (IH Hin Ha) as [e He]. rewrite He. eexists. reflexivity.
Qed.

Lemma build_flags_err (args : gmap string (goval F)) (as_ : list (Argument F))
    (a : Argument F) (msg : string) :
  In a as_ -> Positional a = false -> arg_value a args = Err msg ->
  exists e, build_flags args as_ = Err e.
Proof.
  induction as_ as [|b as' IH]; [intros []|]. intros [<-|Hin] Hp Ha; simpl.
  - rewrite Hp, Ha. eexists. reflexivity.
  - destruct (Positional b); [exact (IH Hin Hp Ha)|].
    destruct (arg_value b args) as [[v|]|e]; [| exact (IH Hin Hp Ha) | eexists; reflexivity].
    destruct (negb _ && negb _); [exact (IH Hin Hp Ha)|].
    destruct (buildFlag b v); [|eexists; reflexivity].
    destruct (IH Hin Hp Ha) as [e He]. rewrite He. eexists. reflexivity.
Qed.

Lemma BuildCommand_err (cfg : Config F) (tool : Tool F) (args : gmap string (goval F))
    (a : Argument F) (msg : string) :
  In a (Arguments tool) -> arg_value a args = Err msg ->
  exists e, BuildCommand cfg tool args = Err e.
Proof.
  intros Hin Ha. unfold BuildCommand.
  destruct (build_positional args (extractPositionalArgs (Arguments tool))) as [pos|e] eqn:Ep;
    [|eexists; reflexivity].
  destruct (Positional a) eqn:Epa.
  - assert (Hx : In a (extractPositionalArgs (Arguments tool))).
    { destruct (BuilderFacts2.extractPositionalArgs_sorted_perm (Arguments tool)) as [_ Hp].
      apply (Permutation_in _ (Permutation_sym Hp)). apply filter_In. split; assumption. }
    destruct (build_positional_err _ _ _ _ Hx Ha) as [e He]. congruence.
  - destruct (build_flags_err _ _ _ _ Hin Epa Ha) as [e He]. rewrite He.
    eexists. reflexivity.
Qed.

Lemma BuildCommand_head (cfg : Config F) (tool : Tool F) (args : gmap string (goval F))
    (parts : list string) :
  BuildCommand cfg tool args = Ok parts -> SetCommand (CfgSettings cfg) <> "" ->
  exists rest, parts = SetCommand (CfgSettings cfg) :: rest.
Proof.
  intros Hb Hne. unfold BuildCommand in Hb.
  destruct (String.eqb (SetCommand (CfgSettings cfg)) "") eqn:E;
    [apply String.eqb_eq in E; contradiction|].
  destruct (build_positional _ _); [|discriminate].
  destruct (build_flags _ _); [|discriminate].
  injection Hb as <-. eexists. reflexivity.
Qed.

(** Execute starts at most one process: either the world and the process
    log are unchanged, or BuildCommand produced a command that
    ValidateCommand accepted and exactly that command was started, in
    the directory, environment and timeout Execute sets up. *)
Theorem Execute_at_most_one_process (cfg : Config F) (tool : Tool F)
    (args : gmap string (goval F)) (w : World) (log : list Cmd) :
  snd (Execute cfg tool args (w, log)) = (w, log) \/
  exists parts,
    BuildCommand cfg tool args = Ok parts /\
    Sandbox.ValidateCommand (Getwd w) parts (CfgSecurity cfg) = None /\
    snd (Execute cfg tool args (w, log)) =
    (fst (run w (execute_cmd cfg parts (Getwd w) (Environ w))),
     app log [execute_cmd cfg parts (Getwd w) (Environ w)]).
Proof.
  unfold Execute.
  destruct (BuildCommand cfg tool args) as [parts|e] eqn:Eb; [|left; reflexivity].
  unfold bind, getwd, environ, exec. cbn [fst snd].
  destruct (Sandbox.ValidateCommand (Getwd w) parts (CfgSecurity cfg)) eqn:Ev;
    [left; reflexivity|].
  right. exists parts. split; [reflexivity|]. split; [exact Ev|].
  change (Environ (w, log).1) with (Environ w).
  destruct (run w (execute_cmd cfg parts (Getwd w) (Environ w))) as [w1 r] eqn:Er. simpl.
  destruct (DeadlineExceeded r); [reflexivity|].
  destruct (RunErr r) as [[]|]; try reflexivity.
  destruct (Parser.ParseOutput _ _); reflexivity.
Qed.

(** When the catalog command is non-empty and its basename is blocked,
    every tool call whose command builds is refused with
    "command blocked by security policy: command '<base>' is blocked"
    and no process is started, whatever the arguments. *)
Theorem Execute_blocked_catalog_command (cfg : Config F) (tool : Tool F)
    (args : gmap string (goval F)) (parts : list string) (w : World) (log : list Cmd) :
  BuildCommand cfg tool args = Ok parts ->
  SetCommand (CfgSettings cfg) <> "" ->
  In (FilePath.Base (SetCommand (CfgSettings cfg))) (BlockedCommands (CfgSecurity cfg)) ->
  Execute cfg tool args (w, log) =
  (("", Some ("command blocked by security policy: command '" ++
              FilePath.Base (SetCommand (CfgSettings cfg)) ++ "' is blocked")), (w, log)).
Proof.
  intros Hb Hne Hbl. destruct (BuildCommand_head _ _ _ _ Hb Hne) as [rest ->].
  unfold Execute. rewrite Hb. unfold bind at 1, getwd. simpl.
  apply SandboxFacts.IsCommandBlocked_In in Hbl. rewrite Hbl. reflexivity.
Qed.

(** For a tool with raw output, a command that passes the sandbox and
    exits without error within its timeout yields exactly its stdout
    (followed by a newline and its stderr when stderr is not empty),
    when the output limit is not positive or the output fits in it. *)
Theorem Execute_raw_output (cfg : Config F) (tool : Tool F) (args : gmap string (goval F))
    (parts : list string) (w w' : World) (log : list Cmd) (r : RunResult) :
  BuildCommand cfg tool args = Ok parts ->
  Sandbox.ValidateCommand (Getwd w) parts (CfgSecurity cfg) = None ->
  run w (execute_cmd cfg parts (Getwd w) (Environ w)) = (w', r) ->
  DeadlineExceeded r = false ->
  RunErr r = None ->
  OutType (ToolOutput tool) = "raw" ->
  (MaxOutputSize (CfgSecurity cfg) <= 0 \/ len (combined r) <= MaxOutputSize (CfgSecurity cfg))%Z ->
  Execute cfg tool args (w, log) =
  ((combined r, None), (w', app log [execute_cmd cfg parts (Getwd w) (Environ w)])).
Proof.
  intros Hb Hv Hrun Hdl Herr Hty Hsz.
  unfold Execute. rewrite Hb. unfold bind at 1, getwd. simpl. rewrite Hv.
  unfold bind at 1, environ. simpl. unfold bind, exec. rewrite Hrun. simpl.
  rewrite Hdl, Herr, (truncate_short _ _ Hsz).
  unfold Parser.ParseOutput. rewrite Hty. reflexivity.
Qed.

(** When every step of a chain exits without error, ExecuteChain starts
    the steps' commands in order (none of them checked by the sandbox)
    and returns their outputs joined by newlines, with no error. *)
Theorem ExecuteChain_all_succeed (cfg : Config F) (chain : list Chain)
    (args : gmap string (goval F)) (w w' : World) (log cmds : list Cmd) (outs : list string) :
  steps_ok cfg args w chain w' cmds outs ->
  ExecuteChain cfg chain args (w, log) = ((Join outs nl, None), (w', app log cmds)).
Proof. intros Hok. exact (chain_loop_success cfg args w chain w' cmds outs Hok 0 [] log). Qed.

(** A chain argument that contains no "${" is passed unchanged by
    substituteVariables, whatever the call's arguments. *)
Theorem substituteVariables_no_placeholder (input : string) (args : gmap string (goval F)) :
  Contains input "${" = false -> substituteVariables input args = input.
Proof.
  intros Hin. unfold substituteVariables.
  induction (map_to_list args) as [|[k v] l IH]; simpl; [reflexivity|].
  unfold ReplaceAll. rewrite replace_all_fuel_absent; [exact IH|].
  destruct (Contains input ("${" ++ k ++ "}")) eqn:E; [|reflexivity].
  rewrite <- Hin. symmetry. exact (Contains_app _ _ _ E).
Qed.

(** For a configuration returned by LoadConfig, a call that omits a
    required argument of one of its tools fails in BuildCommand (a
    required argument has no default there), and Execute then reports
    "failed to build command: ..." without starting a process. *)
Theorem LoadConfig_missing_required_arg (parsed : result (Config F)) (cfg : Config F)
    (tool : Tool F) (arg : Argument F) (args : gmap string (goval F))
    (w : World) (log : list Cmd) :
  Loader.LoadConfig parsed = Ok cfg ->
  In tool (Tools cfg) -> In arg (Arguments tool) -> Required arg = true ->
  args !! ArgName arg = None ->
  exists e, BuildCommand cfg tool args = Err e /\
            Execute cfg tool args (w, log) = (("", Some ("failed to build command: " ++ e)), (w, log)).
Proof.
  intros Hl Ht Ha Hr Hmiss.
  destruct (LoaderFacts.LoadConfig_guarantees _ _ Hl) as (_ & _ & _ & _ & _ & _ & _ & Hall).
  pose proof (proj1 (List.Forall_forall _ _) Hall tool Ht) as (_ & _ & _ & _ & Hargs).
  pose proof (proj1 (List.Forall_forall _ _) Hargs arg Ha) as (_ & _ & Hd).
  destruct (BuildCommand_err cfg tool args arg _ Ha (arg_value_missing arg args Hr (Hd Hr) Hmiss))
    as [e He].
  exists e. split; [exact He|]. unfold Execute. rewrite He. reflexivity.
Qed.

End ExecFacts2.
End ExecFacts2.

(* ------------------------------------------------------------------ *)
(** ** Further server properties *)

Module ServerFacts2.
Import Exec Mcp ServerPreds.

Section ServerFacts2.
Context {F : Type} `{GoFloat F} `{RegexEngine} `{OtherParsers} `{ProcessEnv}.

Lemma index_tools_other (cfg : Config F) (ts : list (Tool F)) (m : gmap string (Tool F))
    (name : string) :
  (forall t, In t ts -> fullName cfg t <> name) -> index_tools cfg ts m !! name = m !! name.
Proof.
  unfold index_tools. revert m.
  induction ts as [|t ts IH]; intros m Hts; cbn [fold_left]; [reflexivity|].
  rewrite IH by (intros t' Ht'; apply Hts; right; exact Ht').
  apply lookup_insert_ne. apply Hts. left. reflexivity.
Qed.

Lemma index_tools_keep (cfg : Config F) (ts : list (Tool F)) (m : gmap string (Tool F))
    (name : string) :
  m !! name <> None -> index_tools cfg ts m !! name <> None.
Proof.
  revert m. induction ts as [|t ts IH]; intros m Hm; simpl; [exact Hm|].
  apply IH. destruct (decide (fullName cfg t = name)) as [<-|Hne].
  - rewrite lookup_insert_eq. discriminate.
  - rewrite lookup_insert_ne by exact Hne. exact Hm.
Qed.

Lemma index_tools_in (cfg : Config F) (ts : list (Tool F)) (m : gmap string (Tool F))
    (tool : Tool F) :
  In tool ts -> index_tools cfg ts m !! fullName cfg tool <> None.
Proof.
  revert m. induction ts as [|t ts IH]; intros m Hin; [destruct Hin|].
  destruct Hin as [<-|Hin]; simpl.
  - apply index_tools_keep. rewrite lookup_insert_eq. discriminate.
  - exact (IH _ Hin).
Qed.

Lemma index_configs_keep (cfgs : list (Config F)) (m : gmap string (Tool F)) (name : string) :
  m !! name <> None ->
  fold_left (fun m cfg => index_tools cfg (Tools cfg) m) cfgs m !! name <> None.
Proof.
  revert m. induction cfgs as [|c cs IH]; intros m Hm; simpl; [exact Hm|].
  apply IH. apply index_tools_keep. exact Hm.
Qed.

Lemma NewServer_lookup_Some (cfgs : list (Config F)) (cfg : Config F) (tool : Tool F) :
  In cfg cfgs -> In tool (Tools cfg) -> tools (NewServer cfgs) !! fullName cfg tool <> None.
Proof.
  intros Hc Ht. unfold NewServer. simpl.
  change (fold_left (fun m cfg => index_tools cfg (Tools cfg) m) cfgs ∅ !! fullName cfg tool
          <> None).
  generalize (∅ : gmap string (Tool F)). induction cfgs as [|c cs IH]; intros m; [destruct Hc|].
  destruct Hc as [<-|Hc]; simpl.
  - apply index_configs_keep. apply index_tools_in. exact Ht.
  - exact (IH Hc _).
Qed.

Lemma find_config_declares (cfgs : list (Config F)) (name : string) (c : Config F) :
  find_config cfgs name = Some c ->
  In c cfgs /\ exists t, In t (Tools c) /\ fullName c t = name.
Proof.
  unfold find_config. intros Hf. destruct (find_some _ _ Hf) as [Hin Hp].
  split; [exact Hin|]. apply existsb_exists in Hp. destruct Hp as (t & Ht & E).
  apply String.eqb_eq in E. eauto.
Qed.

Lemma find_config_exists (cfgs : list (Config F)) (cfg : Config F) (tool : Tool F) :
  In cfg cfgs -> In tool (Tools cfg) -> exists c, find_config cfgs (fullName cfg tool) = Some c.
Proof.
  intros Hc Ht. unfold find_config.
  destruct (find _ cfgs) as [c|] eqn:Ef; [eauto|].
  exfalso. pose proof (find_none _ _ Ef cfg Hc) as Hn. cbv beta in Hn.
  assert (Hy : existsb (fun t => String.eqb (fullName cfg t) (fullName cfg tool)) (Tools cfg)
               = true).
  { apply existsb_exists. exists tool. split; [exact Ht | apply String.eqb_refl]. }
  congruence.
Qed.

Lemma handleToolCall_found (s : Server) (req : Request) (name : string)
    (args : gmap string (goval F)) (tool : Tool F) (cfg : Config F) (st : World * list Cmd) :
  Params req = Ok (mkToolCallParams name args) ->
  tools s !! name = Some tool ->
  find_config (configs s) name = Some cfg ->
  handleToolCall s req st =
  (call_answer (ReqID req) (fst (Execute cfg tool args st)), snd (Execute cfg tool args st)).
Proof.
  intros Hp Ht Hc. unfold handleToolCall. rewrite Hp. cbv beta iota.
  unfold PName, PArguments. rewrite Ht, Hc. unfold bind.
  destruct (Execute cfg tool args st) as [[out [err|]] st']; reflexivity.
Qed.

(** A tools/call request naming a tool declared by a loaded catalog is
    always answered with a tool result, never a JSON-RPC error (the
    "Configuration not found" branch is unreachable): the tool is run by
    Execute with a catalog declaring that name, and the result is
    flagged as an error, with text "Command failed: <error>", exactly
    when Execute returns an error; otherwise its text is the output. *)
Theorem handleRequest_declared_tool
    (handleOther : Server -> Request -> M Response)
    (cfgs : list (Config F)) (req : Request) (name : string)
    (args : gmap string (goval F)) (cfg : Config F) (tool : Tool F) (w : World) (log : list Cmd) :
  Method req = "tools/call" ->
  Params req = Ok (mkToolCallParams name args) ->
  In cfg cfgs -> In tool (Tools cfg) -> fullName cfg tool = name ->
  exists cfg' tool',
    In cfg' cfgs /\ (exists t, In t (Tools cfg') /\ fullName cfg' t = name) /\
    tools (NewServer cfgs) !! name = Some tool' /\
    handleRequest handleOther (NewServer cfgs) req (w, log) =
    (SendResult (ReqID req) (ToolCallPayload
       (match snd (fst (Execute cfg' tool' args (w, log))) with
        | Some err => mkToolCallResult [mkContentItem "text" ("Command failed: " ++ err)] true
        | None => mkToolCallResult [mkContentItem "text" (fst (fst (Execute cfg' tool' args (w, log))))] false
        end)),
     snd (Execute cfg' tool' args (w, log))).
Proof.
  intros Hm Hp Hc Ht Hn. subst name.
  destruct (find_config_exists _ _ _ Hc Ht) as [cfg' Hf].
  destruct (tools (NewServer cfgs) !! fullName cfg tool) as [tool'|] eqn:El;
    [|exfalso; exact (NewServer_lookup_Some _ _ _ Hc Ht El)].
  exists cfg', tool'.
  destruct (find_config_declares _ _ _ Hf) as [Hin' Hdecl].
  split; [exact Hin'|]. split; [exact Hdecl|]. split; [reflexivity|].
  unfold handleRequest. rewrite Hm. cbv beta iota zeta. rewrite String.eqb_refl.
  rewrite (handleToolCall_found _ _ _ _ tool' cfg' _ Hp El Hf). reflexivity.
Qed.

Lemma index_configs_other (cs : list (Config F)) (m : gmap string (Tool F)) (name : string) :
  (forall c t, In c cs -> In t (Tools c) -> fullName c t <> name) ->
  fold_left (fun m cfg => index_tools cfg (Tools cfg) m) cs m !! name = m !! name.
Proof.
  revert m. induction cs as [|c cs IH]; intros m Hcs; simpl; [reflexivity|].
  rewrite IH by (intros c' t Hc Ht; apply (Hcs c' t); [right; exact Hc | exact Ht]).
  apply index_tools_other. intros t Ht. apply (Hcs c t); [left; reflexivity | exact Ht].
Qed.

Lemma find_config_first (pre post : list (Config F)) (c1 : Config F) (t1 : Tool F)
    (name : string) :
  (forall c t, In c pre -> In t (Tools c) -> fullName c t <> name) ->
  In t1 (Tools c1) -> fullName c1 t1 = name ->
  find_config (app pre (c1 :: post)) name = Some c1.
Proof.
  intros Hpre Ht1 Hn1. unfold find_config.
  induction pre as [|c pre IH]; simpl.
  - replace (existsb (fun t => String.eqb (fullName c1 t) name) (Tools c1)) with true;
      [reflexivity|].
    symmetry. apply existsb_exists. exists t1. split; [exact Ht1|].
    rewrite Hn1. apply String.eqb_refl.
  - replace (existsb (fun t => String.eqb (fullName c t) name) (Tools c)) with false.
    + apply IH. intros c' t Hc Ht. apply (Hpre c' t); [right; exact Hc | exact Ht].
    + symmetry. apply Bool.not_true_iff_false. intros Hy.
      apply existsb_exists in Hy. destruct Hy as (t & Ht & E).
      apply String.eqb_eq in E. exact (Hpre c t (or_introl eq_refl) Ht E).
Qed.

(** When several catalogs produce the same full tool name (for instance a
    catalog "a_b" with a tool "c" and a catalog "a" with a tool "b_c"),
    tools/call runs the tool registered last under that name (NewServer's
    index keeps the last insertion: the last such tool of the last
    catalog declaring the name) with the configuration of the first
    catalog declaring the name (find_config returns the first match),
    wherever these catalogs stand in the server's list. *)
Theorem handleToolCall_duplicate_full_name
    (cfgs pre1 post1 pre2 post2 : list (Config F)) (c1 c2 : Config F) (t1 t2 : Tool F)
    (ts1 ts2 : list (Tool F))
    (req : Request) (name : string) (args : gmap string (goval F)) (w : World) (log : list Cmd) :
  Params req = Ok (mkToolCallParams name args) ->
  cfgs = app pre1 (c1 :: post1) ->
  (forall c t, In c pre1 -> In t (Tools c) -> fullName c t <> name) ->
  In t1 (Tools c1) -> fullName c1 t1 = name ->
  cfgs = app pre2 (c2 :: post2) ->
  (forall c t, In c post2 -> In t (Tools c) -> fullName c t <> name) ->
  Tools c2 = app ts1 (t2 :: ts2) -> fullName c2 t2 = name ->
  (forall t, In t ts2 -> fullName c2 t <> name) ->
  handleToolCall (NewServer cfgs) req (w, log) =
  (call_answer (ReqID req) (fst (Execute c1 t2 args (w, log))),
   snd (Execute c1 t2 args (w, log))).
Proof.
  intros Hp E1 Hpre Ht1 Hn1 E2 Hpost Hts Hn2 Hlast.
  apply handleToolCall_found with (name := name); [exact Hp| |].
  - unfold NewServer. simpl tools.
    change (fold_left (fun m cfg => index_tools cfg (Tools cfg) m) cfgs ∅ !! name = Some t2).
    rewrite E2, fold_left_app. cbn [fold_left].
    rewrite index_configs_other by exact Hpost.
    rewrite Hts. unfold index_tools at 1. rewrite fold_left_app. cbn [fold_left].
    pose proof (fun m => index_tools_other c2 ts2 m name Hlast) as Hk.
    unfold index_tools in Hk. rewrite Hk, Hn2. apply lookup_insert_eq.
  - simpl configs. rewrite E1. exact (find_config_first pre1 post1 c1 t1 name Hpre Ht1 Hn1).
Qed.

End ServerFacts2.
End ServerFacts2.

(* ------------------------------------------------------------------ *)
(** ** tools/list properties *)

Module ToolsListFacts.
Import Mcp McpTools.

Section ToolsListFacts.
Context {F : Type}.

Lemma map_set_values {A} (P : A -> Prop) (m : list (string * A)) (k : string) (v : A) :
  Forall P (map snd m) -> P v -> Forall P (map snd (map_set m k v)).
Proof.
  induction m as [|[k' v'] m IH]; simpl; intros Hm Hv; [constructor; [exact Hv | constructor]|].
  inversion Hm as [|? ? Hv' Hm']. subst.
  destruct (String.eqb k k'); simpl; constructor; auto.
Qed.

Definition json_type_ok (prop : Property (F := F)) : Prop :=
  match prop with
  | mkProperty ty _ _ _ _ _ => In ty ["boolean"; "integer"; "number"; "array"; "object"; "string"]
  end.

Lemma mapArgType_ok (t : string) :
  In (mapArgTypeToJSONSchema t) ["boolean"; "integer"; "number"; "array"; "object"; "string"].
Proof.
  unfold mapArgTypeToJSONSchema.
  repeat match goal with |- context [if ?b then _ else _] => destruct b end; simpl; tauto.
Qed.

Lemma schema_fold (l : list (Argument F)) (p : list (string * Property)) (r : list string) :
  snd (fold_left schema_step l (p, r)) = app r (map ArgName (List.filter (fun a => Required a) l)) /\
  (forall k, In k (map fst (fst (fold_left schema_step l (p, r)))) <->
             In k (map fst p) \/ In k (map ArgName l)) /\
  (Forall json_type_ok (map snd p) -> Forall json_type_ok (map snd (fst (fold_left schema_step l (p, r))))).
Proof.
  revert p r. induction l as [|a l IH]; intros p r; simpl.
  - rewrite app_nil_r. split; [reflexivity|]. split; [tauto | auto].
  - destruct (IH (map_set p (ArgName a) (mkProperty (mapArgTypeToJSONSchema (ArgType a))
                  (ArgDescription a) (Default a) (Min a) (Max a)
                  (if String.eqb (ArgType a) "array"
                   then Some (mkProperty "string" "" VNil None None None) else None)))
                 (if Required a then app r [ArgName a] else r)) as (H1 & H2 & H3).
    split; [|split].
    + rewrite H1. destruct (Required a); simpl; [rewrite <- app_assoc|]; reflexivity.
    + intros k. rewrite H2, ParserFacts.map_set_keys. intuition congruence.
    + intros Hp. apply H3. apply map_set_values; [exact Hp|]. apply mapArgType_ok.
Qed.

(** The tools/list entry of a tool: its full name and description, and
    an input schema of type "object" whose properties are keyed by the
    names of the tool's arguments, each typed with a JSON-schema type
    (boolean, integer, number, array, object or string), and whose
    required list holds the names of the required arguments in their
    declaration order. *)
Theorem tool_info_schema (cfg : Config F) (tool : Tool F) :
  InfoName (tool_info cfg tool) = fullName cfg tool /\
  InfoDescription (tool_info cfg tool) = ToolDescription tool /\
  SchemaType (InfoSchema (tool_info cfg tool)) = "object" /\
  SchemaRequired (InfoSchema (tool_info cfg tool)) =
    map ArgName (List.filter (fun a => Required a) (Arguments tool)) /\
  (forall k, In k (map fst (Properties (InfoSchema (tool_info cfg tool)))) <->
             In k (map ArgName (Arguments tool))) /\
  Forall json_type_ok (map snd (Properties (InfoSchema (tool_info cfg tool)))).
Proof.
  destruct (schema_fold (Arguments tool) [] []) as (H1 & H2 & H3).
  unfold tool_info.
  destruct (fold_left schema_step (Arguments tool) ([], [])) as [props req] eqn:E.
  simpl in *. split; [reflexivity|]. split; [reflexivity|]. split; [reflexivity|].
  split; [exact H1|]. split; [intros k; rewrite H2; simpl; tauto|]. apply H3. constructor.
Qed.

Lemma tool_info_name (cfg : Config F) (tool : Tool F) :
  InfoName (tool_info cfg tool) = fullName cfg tool.
Proof. unfold tool_info. destruct (fold_left schema_step _ _). reflexivity. Qed.

End ToolsListFacts.

Section ToolsListCall.
Context {F : Type} `{GoFloat F} `{RegexEngine} `{OtherParsers} `{ProcessEnv}.

(** tools/list lists the full names of all tools of all loaded catalogs,
    catalog by catalog in declaration order, and every listed name is
    found by tools/call. *)
Theorem handleToolsList_callable (cfgs : list (Config F)) :
  map InfoName (handleToolsList (NewServer cfgs)) =
    flat_map (fun cfg => map (fullName cfg) (Tools cfg)) cfgs /\
  Forall (fun n => tools (NewServer cfgs) !! n <> None)
         (map InfoName (handleToolsList (NewServer cfgs))).
Proof.
  assert (Hn : map InfoName (handleToolsList (NewServer cfgs)) =
               flat_map (fun cfg => map (fullName cfg) (Tools cfg)) cfgs).
  { unfold handleToolsList. simpl configs.
    induction cfgs as [|c cs IH]; simpl; [reflexivity|].
    rewrite map_app, IH, map_map. f_equal. apply map_ext. apply tool_info_name. }
  split; [exact Hn|]. rewrite Hn. apply List.Forall_forall. intros n Hin.
  apply in_flat_map in Hin. destruct Hin as (cfg & Hc & Hin).
  apply in_map_iff in Hin. destruct Hin as (tool & <- & Ht).
  exact (ServerFacts2.NewServer_lookup_Some cfgs cfg tool Hc Ht).
Qed.

End ToolsListCall.
End ToolsListFacts.

(* ------------------------------------------------------------------ *)
(** ** Further output parser properties *)

Module ParserFacts2.
Import GoStr Parser.

Lemma append_cancel_l (a b c : string) : a ++ b = a ++ c -> b = c.
Proof. induction a as [|x a IH]; simpl; [auto|]. intros E. injection E. exact IH. Qed.

Section ParserFacts2.
Context {F : Type} `{GoFloat F} `{RegexEngine} `{OtherParsers}.

Lemma all_some_quote (d : nat) (xs : list string) :
  all_some (map (encode (F := F) true d) (map VString xs)) = Some (map quote xs).
Proof. induction xs as [|x xs IH]; simpl; [reflexivity|]. rewrite IH. reflexivity. Qed.

Lemma map_set_fresh {A} (m : list (string * A)) (k : string) (v : A) :
  ~ In k (map fst m) -> map_set m k v = app m [(k, v)].
Proof.
  induction m as [|[k' v'] m IH]; simpl; intros Hk; [reflexivity|].
  destruct (String.eqb k k') eqn:E.
  - apply String.eqb_eq in E. subst. exfalso. apply Hk. left. reflexivity.
  - rewrite IH; [reflexivity|]. intros Hin. apply Hk. right. exact Hin.
Qed.

Definition group_key (j : nat) : string := "group" ++ Itoa (Z.of_nat j).

Lemma group_key_inj (i j : nat) : group_key i = group_key j -> i = j.
Proof.
  unfold group_key. intros E. apply append_cancel_l in E.
  apply BuilderFacts2.Itoa_inj in E. lia.
Qed.

Lemma numbered_groups_from (i : nat) (subs : list string) (r : list (string * goval F)) :
  0 < i ->
  (forall j, i <= j -> ~ In (group_key j) (map fst r)) ->
  numbered_groups i subs r =
  app r (map (fun '(j, s) => (group_key j, VString s)) (combine (seq i (length subs)) subs)).
Proof.
  revert i r. induction subs as [|s subs IH]; intros i r Hi Hr; simpl.
  - rewrite app_nil_r. reflexivity.
  - replace (Nat.ltb 0 i) with true by (symmetry; apply Nat.ltb_lt; exact Hi).
    rewrite map_set_fresh by (apply Hr; lia).
    rewrite IH; [rewrite <- app_assoc; reflexivity | lia |].
    intros j Hj Hin. rewrite map_app in Hin. apply in_app_or in Hin.
    destruct Hin as [Hin|[Hk|[]]].
    + exact (Hr j ltac:(lia) Hin).
    + simpl in Hk. apply group_key_inj in Hk. lia.
Qed.

(** parseLines never fails: every output is turned into a JSON array,
    and an output that is empty or only white space (Go's
    strings.TrimSpace leaves nothing of it, Unicode white space such as
    U+00A0 included) gives the empty array "[]". *)
Theorem parseLines_total_blank (output : string) :
  (exists data, parseLines (F := F) output = Ok data) /\
  (TrimSpace output = "" -> parseLines (F := F) output = Ok "[]").
Proof.
  split.
  - unfold parseLines.
    destruct (List.filter _ _) as [|x xs]; [eexists; reflexivity|].
    unfold MarshalIndent. cbn [encode map all_some].
    rewrite all_some_quote. eexists; reflexivity.
  - intros Ht. unfold parseLines. rewrite Ht. reflexivity.
Qed.

(** With no named groups, a regex match becomes the object that maps
    "group1", "group2", ... to the submatches in order; the full match
    (capture 0) is left out. *)
Theorem match_object_numbered (full : string) (subs : list string) :
  match_object (F := F) [] (full :: subs) =
  VObject (map (fun '(j, s) => (group_key j, VString s)) (combine (seq 1 (length subs)) subs)).
Proof.
  unfold match_object. cbn [numbered_groups Nat.ltb Nat.leb].
  rewrite numbered_groups_from; [reflexivity | lia |].
  intros j _ [].
Qed.

End ParserFacts2.
End ParserFacts2.

(* ------------------------------------------------------------------ *)
(** ** Concrete instances of the further properties *)

Module ExtraExamples.
Import GoStr Exec Concrete.

Definition ex_named_tool (n : string) : Tool Z :=
  mkTool _ n "" "" [] (mkOutput "raw" "" [] "") [].

Definition ex_named_cfg (name cmd : string) (ts : list (Tool Z)) : Config Z :=
  mkConfig _ "1" (mkMetadata name "" "") (mkSettings cmd "/work" 0 [] "") (ex_security 0) ts.

(** a catalog as parsed from YAML, before the loader's defaults *)
Definition ex_valid_tool : Tool Z :=
  mkTool _ "show" "Show a file" "" [ex_file] (mkOutput "" "" [] "") [].
Definition ex_raw_catalog : Config Z :=
  mkConfig _ "" (mkMetadata "demo" "" "") (mkSettings "cat" "" 0 [] "") (ex_security 0)
           [ex_valid_tool].

(** "a.txt" resolved against the working directory "/work". *)
Lemma Abs_absolute_witness :
  FilePath.Abs (Some "/work") "a.txt" = Some "/work/a.txt" /\ FilePath.IsAbs "/work/a.txt" = true.
Proof.
  split; [vm_compute; reflexivity|].
  apply (PathFacts.Abs_absolute (Some "/work") "a.txt" "/work/a.txt").
  - intros d Hd. injection Hd as <-. reflexivity.
  - vm_compute. reflexivity.
Defined.

(** "/work" is allowed by the list ["/work"], and "/work/a.txt" stays
    allowed once "/tmp" is added to that list. *)
Lemma IsPathAllowed_entry_and_extend_witness :
  Config.IsPathAllowed (Some "/work") "/work" ["/work"] = true /\
  Config.IsPathAllowed (Some "/work") "/work/a.txt" (app ["/work"] ["/tmp"]) = true.
Proof.
  split.
  - apply (proj1 (PathFacts.IsPathAllowed_entry_and_extend (Some "/work") "/work" "/work"
                    ["/work"] [])).
    + left. reflexivity.
    + vm_compute. discriminate.
  - apply (proj2 (PathFacts.IsPathAllowed_entry_and_extend (Some "/work") "/work"
                    "/work/a.txt" ["/work"] ["/tmp"])).
    + discriminate.
    + vm_compute. reflexivity.
Defined.

(** "echo hi" passes the sandbox checks of the demo security settings. *)
Lemma ValidateCommand_accepts_iff_witness :
  Sandbox.ValidateCommand (Some "/work") ["echo"; "hi"] (ex_security 0) = None.
Proof.
  apply (proj2 (SandboxFacts2.ValidateCommand_accepts_iff (Some "/work") ["echo"; "hi"]
                  (ex_security 0))).
  exists "echo", ["hi"].
  split; [reflexivity|]. split; [vm_compute; intuition discriminate|].
  split; [repeat constructor|].
  constructor; [|constructor]. intros Hl. vm_compute in Hl. discriminate Hl.
Defined.

(** the demo catalog loads, and its tools are well formed. *)
Lemma LoadConfig_guarantees_witness :
  Loader.LoadConfig (Ok ex_raw_catalog) = Ok (Loader.applyDefaults ex_raw_catalog) /\
  Forall LoaderPreds.tool_valid (Tools (Loader.applyDefaults ex_raw_catalog)).
Proof.
  assert (Hl : Loader.LoadConfig (Ok ex_raw_catalog) = Ok (Loader.applyDefaults ex_raw_catalog))
    by (vm_compute; reflexivity).
  split; [exact Hl|].
  exact (proj2 (proj2 (proj2 (proj2 (proj2 (proj2 (proj2
           (LoaderFacts.LoadConfig_guarantees _ _ Hl)))))))).
Defined.

(** the array argument "tags" (flag "--tag=") given ["a"; "b"]. *)
Lemma buildFlag_array_items_witness :
  Builder.buildFlag ex_tags (VArray [VString "a"; VString "b"]) = Ok ["--tag=a"; "--tag=b"].
Proof.
  rewrite (BuilderFacts2.buildFlag_array_items ex_tags [VString "a"; VString "b"] eq_refl).
  vm_compute. reflexivity.
Defined.

(** -42 written by Itoa is read back and passed through as an integer. *)
Lemma formatValue_integer_Itoa_witness :
  Builder.formatValue (F := Z) "integer" (VString (Itoa (-42))) = Ok (Itoa (-42)).
Proof.
  exact (proj2 (BuilderFacts2.formatValue_integer_Itoa (F := Z) (-42)
                  ltac:(split; vm_compute; congruence))).
Defined.

(** a catalog running "/bin/rm" while "rm" is blocked. *)
Lemma Execute_blocked_catalog_command_witness :
  Execute (ex_named_cfg "demo" "/bin/rm" [ex_raw_tool]) ex_raw_tool ∅ (0, [])
  = (("", Some ("command blocked by security policy: command '" ++ "rm" ++ "' is blocked")),
     (0, [])).
Proof.
  apply (ExecFacts2.Execute_blocked_catalog_command (ex_named_cfg "demo" "/bin/rm" [ex_raw_tool])
           ex_raw_tool ∅ ["/bin/rm"; "abcdef"] (0 : @World CountingWorld) []).
  - vm_compute. reflexivity.
  - discriminate.
  - left. reflexivity.
Defined.

(** "echo abcdef" with no size limit and the "raw" output type. *)
Lemma Execute_raw_output_witness :
  Execute (ex_cfg 0 [ex_raw_tool]) ex_raw_tool ∅ (0, [])
  = ((combined (mkRunResult "abcdef" "" None false), None),
     (1, app [] [execute_cmd (ex_cfg 0 [ex_raw_tool]) ["echo"; "abcdef"] (Some "/work") []])).
Proof.
  apply (ExecFacts2.Execute_raw_output (ex_cfg 0 [ex_raw_tool]) ex_raw_tool ∅ ["echo"; "abcdef"]
           (0 : @World CountingWorld) 1 [] (mkRunResult "abcdef" "" None false)).
  - vm_compute. reflexivity.
  - vm_compute. reflexivity.
  - reflexivity.
  - reflexivity.
  - reflexivity.
  - reflexivity.
  - left. vm_compute. discriminate.
Defined.

(** steps "one" and "two", both succeed. *)
Lemma ExecuteChain_all_succeed_witness :
  ExecuteChain (ex_cfg 0 []) [ex_step "one"; ex_step "two"] ex_chain_args (0, [])
  = ((Join [combined (mkRunResult "one" "" None false);
            combined (mkRunResult "two" "" None false)] nl, None),
     (2, app [] [chain_cmd (ex_cfg 0 []) ex_chain_args [] (ex_step "one");
                 chain_cmd (ex_cfg 0 []) ex_chain_args [] (ex_step "two")])).
Proof.
  apply (ExecFacts2.ExecuteChain_all_succeed (ex_cfg 0 []) [ex_step "one"; ex_step "two"]
           ex_chain_args (0 : @World CountingWorld) 2 []).
  apply ChainRuns.steps_ok_cons with (w1 := 1); [reflexivity | reflexivity |].
  apply ChainRuns.steps_ok_cons with (w1 := 2); [reflexivity | reflexivity |].
  apply ChainRuns.steps_ok_nil.
Defined.

(** a command line without a placeholder is left unchanged. *)
Lemma substituteVariables_no_placeholder_witness :
  substituteVariables "echo $HOME {x}" (∅ : gmap string (goval Z)) = "echo $HOME {x}".
Proof.
  apply ExecFacts2.substituteVariables_no_placeholder. vm_compute. reflexivity.
Defined.

(** the loaded demo catalog called without its required "file". *)
Lemma LoadConfig_missing_required_arg_witness :
  exists e,
    Builder.BuildCommand (Loader.applyDefaults ex_raw_catalog) (Loader.default_tool ex_valid_tool) ∅
    = Err e /\
    Execute (Loader.applyDefaults ex_raw_catalog) (Loader.default_tool ex_valid_tool) ∅ (0, [])
    = (("", Some ("failed to build command: " ++ e)), (0, [])).
Proof.
  apply (ExecFacts2.LoadConfig_missing_required_arg (Ok ex_raw_catalog)
           (Loader.applyDefaults ex_raw_catalog) (Loader.default_tool ex_valid_tool) ex_file ∅
           (0 : @World CountingWorld) []).
  - vm_compute. reflexivity.
  - left. reflexivity.
  - left. reflexivity.
  - reflexivity.
  - reflexivity.
Defined.

(** tools/call of "demo_show" on the demo catalog. *)
Lemma handleRequest_declared_tool_witness :
  exists cfg' tool',
    In cfg' [ex_cfg 0 [ex_tool]] /\
    (exists t, In t (Tools cfg') /\ Mcp.fullName cfg' t = "demo_show") /\
    Mcp.tools (Mcp.NewServer [ex_cfg 0 [ex_tool]]) !! "demo_show" = Some tool' /\
    Mcp.handleRequest ex_handleOther (Mcp.NewServer [ex_cfg 0 [ex_tool]]) (ex_request "demo_show")
      (0, [])
    = (Mcp.SendResult (VInt 1) (Mcp.ToolCallPayload
         (match snd (fst (Execute cfg' tool' ∅ (0, []))) with
          | Some err => Mcp.mkToolCallResult [Mcp.mkContentItem "text" ("Command failed: " ++ err)] true
          | None => Mcp.mkToolCallResult
                      [Mcp.mkContentItem "text" (fst (fst (Execute cfg' tool' ∅ (0, []))))] false
          end)),
       snd (Execute cfg' tool' ∅ (0, []))).
Proof.
  apply (ServerFacts2.handleRequest_declared_tool ex_handleOther [ex_cfg 0 [ex_tool]]
           (ex_request "demo_show") "demo_show" ∅ (ex_cfg 0 [ex_tool]) ex_tool
           (0 : @World CountingWorld) []).
  - reflexivity.
  - reflexivity.
  - left. reflexivity.
  - left. reflexivity.
  - reflexivity.
Defined.

(** catalogs "x" (tool "y"), "a_b" (tool "c") and "a" (tool "b_c"): the
    last two both give the name "a_b_c", and the call runs the tool
    "b_c" under the catalog "a_b". *)
Lemma handleToolCall_duplicate_full_name_witness :
  Mcp.handleToolCall
    (Mcp.NewServer [ex_named_cfg "x" "echo" [ex_named_tool "y"];
                    ex_named_cfg "a_b" "echo" [ex_named_tool "c"];
                    ex_named_cfg "a" "echo" [ex_named_tool "b_c"]])
    (ex_request "a_b_c") (0, [])
  = (ServerPreds.call_answer (VInt 1)
       (fst (Execute (ex_named_cfg "a_b" "echo" [ex_named_tool "c"]) (ex_named_tool "b_c") ∅ (0, []))),
     snd (Execute (ex_named_cfg "a_b" "echo" [ex_named_tool "c"]) (ex_named_tool "b_c") ∅ (0, []))).
Proof.
  apply (ServerFacts2.handleToolCall_duplicate_full_name
           _ [ex_named_cfg "x" "echo" [ex_named_tool "y"]]
           [ex_named_cfg "a" "echo" [ex_named_tool "b_c"]]
           [ex_named_cfg "x" "echo" [ex_named_tool "y"]; ex_named_cfg "a_b" "echo" [ex_named_tool "c"]]
           []
           (ex_named_cfg "a_b" "echo" [ex_named_tool "c"]) (ex_named_cfg "a" "echo" [ex_named_tool "b_c"])
           (ex_named_tool "c") (ex_named_tool "b_c") [] [] (ex_request "a_b_c") "a_b_c" ∅
           (0 : @World CountingWorld) []).
  - reflexivity.
  - reflexivity.
  - intros c t [<-|[]] [<-|[]]. vm_compute. discriminate.
  - left. reflexivity.
  - reflexivity.
  - reflexivity.
  - intros c t [].
  - reflexivity.
  - reflexivity.
  - intros t [].
Defined.

(** an output made of a no-break space (U+00A0, bytes C2 A0), a space,
    a newline and an ideographic space (U+3000, bytes E3 80 80). *)
Definition ex_blank_output : string :=
  String (ascii_of_nat 194) (String (ascii_of_nat 160) (String " " (String (ascii_of_nat 10)
    (String (ascii_of_nat 227) (String (ascii_of_nat 128) (String (ascii_of_nat 128) "")))))).

Lemma parseLines_total_blank_witness :
  Parser.parseLines (F := Z) ex_blank_output = Ok "[]".
Proof.
  apply (proj2 (ParserFacts2.parseLines_total_blank (F := Z) ex_blank_output)).
  vm_compute. reflexivity.
Defined.

End ExtraExamples.
